(** * Embedding adapters of langchain: a shallow embedding

    The development follows three source files:
    - [langchain/embeddings/sagemaker_endpoint.py]
      (class [SagemakerEndpointEmbeddings]),
    - [langchain/embeddings/tensorflow_hub.py]
      (class [TensorflowHubEmbeddings]),
    - [tests/integration_tests/vectorstores/fake_embeddings.py]
      (class [FakeEmbeddings]).

    Python integers are [Z], Python [str] is [string] (the UTF-8 bytes of the
    text: the byte 10 occurs in UTF-8 only as the line feed itself, so the
    replacement of line feeds is the same on bytes and on code points),
    Python [float] is the kernel's binary64 [float].  A call that may raise
    returns an [outcome]; a call that talks to a collaborator (the content
    handler, the endpoint client, the loaded model) threads a [state] that
    holds the collaborator's own world and the journal of calls made. *)

From Stdlib Require Import ZArith PrimFloat Uint63.
From stdpp Require Import base list strings.

Local Open Scope string_scope.
Local Open Scope list_scope.
Local Open Scope Z_scope.

Declare Scope py_scope.
Delimit Scope py_scope with py.
Reserved Notation "x <- m ;; k"
  (at level 100, m at next level, right associativity).

(** ** Python values and exceptions *)

Module Py.

(** The exception classes the three files raise, catch or let through.
    [OtherError] is any further subclass of [Exception] that is not an
    [ImportError]; [NonError] is a [BaseException] outside [Exception]
    ([KeyboardInterrupt], [SystemExit]), which [except Exception] lets
    through. *)
Inductive exn_class : Type :=
  | ValueError
  | TypeError
  | KeyError
  | IndexError
  | ImportError
  | OtherError (name : string)
  | NonError (name : string).

(** An exception object: its class and [str(e)]. *)
Record exn : Type := Exn { exn_cls : exn_class; exn_str : string }.

(** [isinstance(e, Exception)] *)
Definition is_Exception (e : exn) : bool :=
  match exn_cls e with
  | NonError _ => false
  | _ => true
  end.

(** [isinstance(e, ImportError)] *)
Definition is_ImportError (e : exn) : bool :=
  match exn_cls e with
  | ImportError => true
  | _ => false
  end.

(** The result of evaluating an expression: a value or a raised exception. *)
Inductive outcome (A : Type) : Type :=
  | Ok (a : A)
  | Raise (e : exn).
Arguments Ok {A} a.
Arguments Raise {A} e.

Definition is_Ok {A} (o : outcome A) : bool :=
  match o with Ok _ => true | Raise _ => false end.

(** The exception an evaluation ended with, if any. *)
Definition err_of {A} (o : outcome A) : option exn :=
  match o with Ok _ => None | Raise e => Some e end.

(** *** [str.replace] with a one-character pattern *)

Definition LF : Ascii.ascii := Ascii.ascii_of_nat 10.
Definition SP : Ascii.ascii := Ascii.ascii_of_nat 32.

(** [s.replace(old, new)] where [old] and [new] are one character long. *)
Fixpoint replace_char (old new : Ascii.ascii) (s : string) : string :=
  match s with
  | EmptyString => EmptyString
  | String c s' =>
      String (if Ascii.eqb c old then new else c) (replace_char old new s')
  end.

(** The expression [x.replace("\n", " ")] of the three embedding paths. *)
Definition replace_newlines (x : string) : string := replace_char LF SP x.

(** The characters of a string, in order. *)
Fixpoint chars (s : string) : list Ascii.ascii :=
  match s with
  | EmptyString => []
  | String c s' => c :: chars s'
  end.

(** *** [range] *)

(** [len(range(start, stop, step))] for a non-zero [step], as CPython
    computes it. *)
Definition range_len (start stop step : Z) : Z :=
  if (0 <? step) && (start <? stop) then 1 + (stop - 1 - start) / step
  else if (step <? 0) && (stop <? start) then 1 + (start - 1 - stop) / (- step)
  else 0.

(** The items of [range(start, stop, step)] for a non-zero [step]. *)
Definition range_items (start stop step : Z) : list Z :=
  (fun k => start + k * step) <$> seqZ 0 (range_len start stop step).

(** [range(start, stop, step)]: a zero step raises. *)
Definition range3 (start stop step : Z) : outcome (list Z) :=
  if step =? 0 then Raise (Exn ValueError "range() arg 3 must not be zero")
  else Ok (range_items start stop step).

(** [range(stop)] *)
Definition range1 (stop : Z) : list Z := range_items 0 stop 1.

(** *** Slices and list repetition *)

(** How a slice bound [i] is brought into [0 .. n]. *)
Definition clamp_index (n i : Z) : Z :=
  if i <? 0 then Z.max 0 (i + n) else Z.min i n.

(** [l[i:j]] *)
Definition slice {A} (l : list A) (i j : Z) : list A :=
  let n := Z.of_nat (length l) in
  let lo := clamp_index n i in
  let hi := clamp_index n j in
  take (Z.to_nat (hi - lo)) (drop (Z.to_nat lo) l).

(** [l * n] *)
Definition list_mul {A} (l : list A) (n : Z) : list A :=
  mjoin (replicate (Z.to_nat n) l).

(** *** [float] *)

(** [float(i)] for an integer [i] with [|i| < 2^63], which covers every
    index of a list: the nearest binary64 value. *)
Definition float_of_int (i : Z) : float :=
  if i <? 0 then PrimFloat.opp (PrimFloat.of_uint63 (Uint63.of_Z (- i)))
  else PrimFloat.of_uint63 (Uint63.of_Z i).

(** [float(x)] for a float [x]. *)
Definition float_of_float (x : float) : float := x.

(** *** Objects *)

(** The values that cross the adapters' interfaces: what a content handler
    decodes, what a keyword dictionary holds, what [tolist] builds. *)
#[local] Unset Elimination Schemes.
Inductive pyobj : Type :=
  | PNone
  | PInt (z : Z)
  | PFloat (x : float)
  | PStr (s : string)
  | PList (items : list pyobj)
  | PDict (items : list (string * pyobj)).
#[local] Set Elimination Schemes.

(** A [dict] with string keys, in insertion order. *)
Definition pydict : Type := list (string * pyobj).

(** [d[k]] *)
Definition getitem (d : pydict) (k : string) : outcome pyobj :=
  match list_find (fun kv => String.eqb (fst kv) k) d with
  | Some (_, (_, v)) => Ok v
  | None => Raise (Exn KeyError ("'" +:+ k +:+ "'"))
  end.

(** [d or {}] for an optional dictionary [d]. *)
Definition or_empty (d : option pydict) : pydict := default [] d.

(** *** Calls to collaborators

    A computation runs in a [state]: the collaborators' world and the
    journal of the calls made so far.  An exception leaves the state as the
    raising call left it. *)
Section Eff.
Context {E W : Type}.

Record state : Type := State { world : W; journal : list E }.

Definition M (A : Type) : Type := state -> outcome A * state.

Definition ret {A} (a : A) : M A := fun s => (Ok a, s).

Definition raise {A} (e : exn) : M A := fun s => (Raise e, s).

Definition lift {A} (o : outcome A) : M A := fun s => (o, s).

Definition bind {A B} (m : M A) (k : A -> M B) : M B :=
  fun s =>
    match m s with
    | (Ok a, s') => k a s'
    | (Raise e, s') => (Raise e, s')
    end.

(** One call of a collaborator: it acts on the world, and the call is
    journalled together with what it returned or raised. *)
Definition extern {A} (f : W -> outcome A * W) (ev : outcome A -> E) : M A :=
  fun s =>
    let (o, w') := f (world s) in
    (o, State w' (journal s ++ [ev o])).

(** [try: m  except C as e: h e], where [catches] decides [isinstance(e, C)]. *)
Definition try_except {A} (m : M A) (catches : exn -> bool) (h : exn -> M A)
  : M A :=
  fun s =>
    match m s with
    | (Raise e, s') => if catches e then h e s' else (Raise e, s')
    | r => r
    end.

(** [for x in xs: acc = body x acc], stopping at the first exception. *)
Fixpoint for_each {X A} (xs : list X) (acc : A) (body : X -> A -> M A) : M A :=
  match xs with
  | [] => ret acc
  | x :: xs' => bind (body x acc) (fun acc' => for_each xs' acc' body)
  end.

End Eff.
Arguments state : clear implicits.
Arguments M : clear implicits.

End Py.

(** ** [FakeEmbeddings] *)

Module FakeEmbeddings.
Import Py.

(** [embed_documents]:
    [[float(1.0)] * 9 + [float(i)] for i in range(len(texts))] *)
Definition embed_documents (texts : list string) : list (list float) :=
  (fun i => list_mul [float_of_float 1%float] 9 ++ [float_of_int i])
    <$> range1 (Z.of_nat (length texts)).

(** [_embed_query]: [[float(1.0)] * 9 + [float(0.0)]] *)
Definition _embed_query (text : string) : list float :=
  list_mul [float_of_float 1%float] 9 ++ [float_of_float 0%float].

End FakeEmbeddings.


Notation "x <- m ;; k" := (Py.bind m (fun x => k)) : py_scope.
Local Open Scope py_scope.

(** ** [SagemakerEndpointEmbeddings] *)

Module Sagemaker.
Import Py.

(** The keyword arguments of one [invoke_endpoint] call: the four the
    source names, and the entries of [**_endpoint_kwargs]. *)
Record request : Type := Request {
  EndpointName : string;
  Body : string;
  ContentType : string;
  Accept : string;
  Extra : pydict
}.

(** What [_embedding_func] and [validate_environment] ask of their
    collaborators, each with how the call ended ([None]: it returned). *)
Inductive event : Type :=
  | ImportModule (name : string) (err : option exn)
  | NewSession (profile_name : option string) (err : option exn)
  | SessionClient (service region : string) (err : option exn)
  | TransformInput (texts : list string) (model_kwargs : pydict)
      (res : outcome string)
  | InvokeEndpoint (req : request) (res : outcome pydict)
  | TransformOutput (body : pyobj) (res : outcome pyobj).

(** [ContentHandlerBase]: the two transforms are code of the caller; they
    are taken as functions of their arguments that may raise. *)
Record ContentHandler : Type := {
  content_type : string;
  accepts : string;
  transform_input : list string -> pydict -> outcome string;
  transform_output : pyobj -> outcome pyobj
}.

Section Model.
Context {W : Type}.

(** The [sagemaker-runtime] client.  [multiple_values k] is the text of the
    [TypeError] Python raises when the keyword [k] is given twice to
    [invoke_endpoint]. *)
Record Client : Type := {
  invoke_endpoint : request -> W -> outcome pydict * W;
  multiple_values : string -> string
}.

(** [boto3.Session] objects and the [boto3] module. *)
Record Session : Type := {
  session_client : string -> string -> W -> outcome Client * W
}.

Record Boto3 : Type := {
  new_session : option string -> W -> outcome Session * W
}.

(** The interpreter's environment: what [import boto3] does. *)
Record Env : Type := {
  import_boto3 : W -> outcome Boto3 * W
}.

(** The fields of the pydantic model, as the [values] dictionary of the
    validator and as the attributes of an instance. *)
Record t : Type := {
  client : option Client;
  endpoint_name : string;
  region_name : string;
  credentials_profile_name : option string;
  content_handler : ContentHandler;
  model_kwargs : option pydict;
  endpoint_kwargs : option pydict
}.

(** [values["client"] = c] *)
Definition set_client (values : t) (c : Client) : t :=
  {| client := Some c;
     endpoint_name := endpoint_name values;
     region_name := region_name values;
     credentials_profile_name := credentials_profile_name values;
     content_handler := content_handler values;
     model_kwargs := model_kwargs values;
     endpoint_kwargs := endpoint_kwargs values |}.

Definition credentials_error : exn :=
  Exn ValueError
    ("Could not load credentials to authenticate with AWS client. "
     +:+ "Please check that credentials in the specified "
     +:+ "profile name are valid.").

Definition import_error : exn :=
  Exn ValueError
    ("Could not import boto3 python package. "
     +:+ "Please it install it with `pip install boto3`.").

(** [validate_environment], the root validator. *)
Definition validate_environment (env : Env) (values : t) : M event W t :=
  try_except
    (boto3 <- extern (import_boto3 env)
                (fun o => ImportModule "boto3" (err_of o)) ;;
     try_except
       (session <-
          match credentials_profile_name values with
          | Some profile =>
              extern (new_session boto3 (Some profile))
                (fun o => NewSession (Some profile) (err_of o))
          | None =>
              extern (new_session boto3 None)
                (fun o => NewSession None (err_of o))
          end ;;
        c <- extern (session_client session "sagemaker-runtime"
                       (region_name values))
               (fun o => SessionClient "sagemaker-runtime"
                           (region_name values) (err_of o)) ;;
        ret (set_client values c))
       is_Exception
       (fun e => raise credentials_error))
    is_ImportError
    (fun _ => raise import_error).

(** The constructor [SagemakerEndpointEmbeddings]: pydantic runs the root
    validator once and builds the instance from what it returns. *)
Definition instantiate (env : Env) (values : t) : M event W t :=
  validate_environment env values.

(** The keywords [invoke_endpoint] is called with by name. *)
Definition named_keywords : list string :=
  ["EndpointName"; "Body"; "ContentType"; "Accept"].

(** The call [self.client.invoke_endpoint(EndpointName=.., Body=..,
    ContentType=.., Accept=.., **_endpoint_kwargs)]: the attribute lookup,
    the merge of the keywords, then the call itself. *)
Definition call_invoke_endpoint (c : option Client) (req : request) : M event W pydict :=
  match c with
  | None =>
      raise (Exn (OtherError "AttributeError")
               "'NoneType' object has no attribute 'invoke_endpoint'")
  | Some cl =>
      match list_find (fun kv => bool_decide (fst kv ∈ named_keywords))
              (Extra req) with
      | Some (_, (k, _)) => raise (Exn TypeError (multiple_values cl k))
      | None => extern (invoke_endpoint cl req) (InvokeEndpoint req)
      end
  end.

Definition endpoint_error (e : exn) : exn :=
  Exn ValueError ("Error raised by inference endpoint: " +:+ exn_str e).

(** [_embedding_func] *)
Definition _embedding_func (self : t) (texts : list string) : M event W pyobj :=
  let texts := replace_newlines <$> texts in
  let _model_kwargs := or_empty (model_kwargs self) in
  let _endpoint_kwargs := or_empty (endpoint_kwargs self) in
  body <- extern
            (fun w => (transform_input (content_handler self) texts
                         _model_kwargs, w))
            (TransformInput texts _model_kwargs) ;;
  let content_type := content_type (content_handler self) in
  let accepts := accepts (content_handler self) in
  response <-
    try_except
      (call_invoke_endpoint (client self)
         {| EndpointName := endpoint_name self;
            Body := body;
            ContentType := content_type;
            Accept := accepts;
            Extra := _endpoint_kwargs |})
      is_Exception
      (fun e => raise (endpoint_error e)) ;;
  b <- lift (getitem response "Body") ;;
  extern (fun w => (transform_output (content_handler self) b, w))
    (TransformOutput b).

Definition default_chunk_size : Z := 64.

(** [embed_documents] *)
Definition embed_documents (self : t) (texts : list string) (chunk_size : Z)
  : M event W (list pyobj) :=
  let results := [] in
  let n := Z.of_nat (length texts) in
  let _chunk_size := if n <? chunk_size then n else chunk_size in
  r <- lift (range3 0 n _chunk_size) ;;
  for_each r results
    (fun i results =>
       response <- _embedding_func self (slice texts i (i + _chunk_size)) ;;
       ret (results ++ [response])).

(** [_embed_query] *)
Definition _embed_query (self : t) (text : string) : M event W pyobj :=
  _embedding_func self [text].

End Model.
Arguments Client : clear implicits.
Arguments Session : clear implicits.
Arguments Boto3 : clear implicits.
Arguments Env : clear implicits.
Arguments t : clear implicits.

End Sagemaker.

(** ** [TensorflowHubEmbeddings] *)

Module TensorflowHub.
Import Py.

Definition DEFAULT_MODEL_URL : string :=
  "https://tfhub.dev/google/universal-sentence-encoder-multilingual/3".

(** What the loaded model is called with: the source passes a list of
    strings in one place and a single string in the other. *)
Inductive model_arg : Type :=
  | ArgStr (text : string)
  | ArgList (texts : list string).

(** A numpy array of floats: a scalar, or the sequence of its sub-arrays
    along the first axis. *)
#[local] Unset Elimination Schemes.
Inductive ndarray : Type :=
  | Scalar (x : float)
  | Array (items : list ndarray).
#[local] Set Elimination Schemes.

(** [a.tolist()] *)
Fixpoint tolist (a : ndarray) : pyobj :=
  match a with
  | Scalar x => PFloat x
  | Array items => PList (map tolist items)
  end.

(** [a[0]] *)
Definition getitem0 (a : ndarray) : outcome ndarray :=
  match a with
  | Scalar _ =>
      Raise (Exn IndexError
               ("too many indices for array: "
                +:+ "array is 0-dimensional, but 1 were indexed"))
  | Array [] =>
      Raise (Exn IndexError "index 0 is out of bounds for axis 0 with size 0")
  | Array (x :: _) => Ok x
  end.

Inductive event : Type :=
  | ImportModule (name : string) (err : option exn)
  | LoadModel (url : string) (err : option exn)
  | ModelCall (arg : model_arg) (res : outcome ndarray).

Section Model.
Context {W : Type}.

(** The handle [tensorflow_hub.load] returns; [run arg] is
    [handle(arg).numpy()]. *)
Record Model : Type := {
  run : model_arg -> W -> outcome ndarray * W
}.

Record Hub : Type := {
  load : string -> W -> outcome Model * W
}.

(** The interpreter's environment: what the two imports do. *)
Record Env : Type := {
  import_tensorflow_hub : W -> outcome Hub * W;
  import_tensorflow_text : W -> outcome unit * W
}.

(** The fields of the pydantic model. *)
Record t : Type := {
  embed : option Model;
  model_url : string
}.

(** The keyword arguments of the constructor; [model_url] defaults to
    [DEFAULT_MODEL_URL], [embed] to [None]. *)
Record kwargs : Type := {
  kw_embed : option Model;
  kw_model_url : option string
}.

(** [super().__init__(kwargs)] *)
Definition super_init (kw : kwargs) : t :=
  {| embed := kw_embed kw;
     model_url := default DEFAULT_MODEL_URL (kw_model_url kw) |}.

(** [self.embed = m] *)
Definition set_embed (self : t) (m : Model) : t :=
  {| embed := Some m; model_url := model_url self |}.

Definition import_error : exn :=
  Exn ValueError ("Could not import some python packages." +:+ "Please install them.").

(** [__init__] *)
Definition __init__ (env : Env) (kw : kwargs) : M event W t :=
  let self := super_init kw in
  try_except
    (tensorflow_hub <- extern (import_tensorflow_hub env)
                         (fun o => ImportModule "tensorflow_hub" (err_of o)) ;;
     _ <- extern (import_tensorflow_text env)
            (fun o => ImportModule "tensorflow_text" (err_of o)) ;;
     m <- extern (load tensorflow_hub (model_url self))
            (fun o => LoadModel (model_url self) (err_of o)) ;;
     ret (set_embed self m))
    is_ImportError
    (fun e => raise import_error).

(** [self.embed(arg).numpy()] *)
Definition call_embed (m : option Model) (arg : model_arg) : M event W ndarray :=
  match m with
  | None => raise (Exn TypeError "'NoneType' object is not callable")
  | Some model => extern (run model arg) (ModelCall arg)
  end.

(** [embed_documents] *)
Definition embed_documents (self : t) (texts : list string) : M event W pyobj :=
  let texts := replace_newlines <$> texts in
  embeddings <- call_embed (embed self) (ArgList texts) ;;
  ret (tolist embeddings).

(** [_embed_query] *)
Definition _embed_query (self : t) (text : string) : M event W pyobj :=
  let text := replace_newlines text in
  a <- call_embed (embed self) (ArgStr text) ;;
  embedding <- lift (getitem0 a) ;;
  ret (tolist embedding).

End Model.
Arguments Model : clear implicits.
Arguments Hub : clear implicits.
Arguments Env : clear implicits.
Arguments t : clear implicits.
Arguments kwargs : clear implicits.

End TensorflowHub.

(** ** Concrete collaborators

    Small stand-ins for the content handler, the endpoint client, the
    Python environment and the loaded model, on which the definitions above
    can be run.  The world is the number of collaborator calls answered. *)

Module Doubles.
Import Py.

(** One vector per character of a request body. *)
Definition vector_per_char (body : string) : pyobj :=
  PList ((fun _ => PList [PFloat 0%float]) <$> chars body).

(** A handler that sends the texts joined together and returns the decoded
    body unchanged. *)
Definition joining_handler : Sagemaker.ContentHandler :=
  {| Sagemaker.content_type := "application/json";
     Sagemaker.accepts := "application/json";
     Sagemaker.transform_input := fun texts _ => Ok (String.concat "" texts);
     Sagemaker.transform_output := fun b => Ok b |}.

(** An endpoint that answers every request. *)
Definition good_client : Sagemaker.Client nat :=
  {| Sagemaker.invoke_endpoint :=
       fun req w => (Ok [("Body", vector_per_char (Sagemaker.Body req))], S w);
     Sagemaker.multiple_values :=
       fun k => "invoke_endpoint() got multiple values for keyword argument '"
                +:+ k +:+ "'" |}.

Definition timeout : exn := Exn (OtherError "ReadTimeoutError") "Read timed out".

(** An endpoint whose second answer (the world counts the answers given)
    is a transport error. *)
Definition flaky_client : Sagemaker.Client nat :=
  {| Sagemaker.invoke_endpoint :=
       fun req w =>
         if Nat.eqb w 1 then (Raise timeout, S w)
         else (Ok [("Body", vector_per_char (Sagemaker.Body req))], S w);
     Sagemaker.multiple_values := Sagemaker.multiple_values good_client |}.

Definition embedder (c : Sagemaker.Client nat) : Sagemaker.t nat :=
  {| Sagemaker.client := Some c;
     Sagemaker.endpoint_name := "my-endpoint-name";
     Sagemaker.region_name := "us-west-2";
     Sagemaker.credentials_profile_name := Some "default";
     Sagemaker.content_handler := joining_handler;
     Sagemaker.model_kwargs := None;
     Sagemaker.endpoint_kwargs := None |}.

(** The state before any call. *)
Definition start {E} : state E nat := State 0%nat [].

(** An environment in which [boto3] is installed and credentials resolve. *)
Definition good_env : Sagemaker.Env nat :=
  {| Sagemaker.import_boto3 := fun w =>
       (Ok {| Sagemaker.new_session := fun _ w =>
                (Ok {| Sagemaker.session_client := fun _ _ w =>
                         (Ok good_client, w) |}, w) |}, w) |}.

(** An environment without the [boto3] package. *)
Definition no_boto3_env : Sagemaker.Env nat :=
  {| Sagemaker.import_boto3 := fun w =>
       (Raise (Exn ImportError "No module named 'boto3'"), w) |}.

(** An environment in which the named credentials profile does not exist. *)
Definition no_profile_env : Sagemaker.Env nat :=
  {| Sagemaker.import_boto3 := fun w =>
       (Ok {| Sagemaker.new_session := fun _ w =>
                (Raise (Exn (OtherError "ProfileNotFound")
                          "The config profile (default) could not be found"),
                 w) |}, w) |}.

(** A model that embeds a batch of strings, one row per string, and
    rejects an argument that is not a batch, as a loaded SavedModel whose
    signature asks for a vector of strings does. *)
Definition batch_model : TensorflowHub.Model nat :=
  {| TensorflowHub.run := fun arg w =>
       match arg with
       | TensorflowHub.ArgList texts =>
           (Ok (TensorflowHub.Array
                  ((fun x => TensorflowHub.Array
                               [TensorflowHub.Scalar
                                  (float_of_int (Z.of_nat (String.length x)))])
                     <$> texts)), S w)
       | TensorflowHub.ArgStr _ =>
           (Raise (Exn ValueError
                     "Could not find matching concrete function to call loaded from the SavedModel."),
            S w)
       end |}.

(** An environment with both packages, in which every model loads. *)
Definition tf_env : TensorflowHub.Env nat :=
  {| TensorflowHub.import_tensorflow_hub := fun w =>
       (Ok {| TensorflowHub.load := fun _ w => (Ok batch_model, w) |}, w);
     TensorflowHub.import_tensorflow_text := fun w => (Ok tt, w) |}.

(** An environment with both packages, in which no model can be fetched. *)
Definition tf_offline_env : TensorflowHub.Env nat :=
  {| TensorflowHub.import_tensorflow_hub := fun w =>
       (Ok {| TensorflowHub.load := fun _ w =>
                (Raise (Exn (OtherError "OSError") "URL fetch failure"), w) |},
        w);
     TensorflowHub.import_tensorflow_text := fun w => (Ok tt, w) |}.

(** The constructor called with no keyword. *)
Definition tf_no_kwargs : TensorflowHub.kwargs nat :=
  {| TensorflowHub.kw_embed := None; TensorflowHub.kw_model_url := None |}.

(** A model that answers every call with an array without rows. *)
Definition silent_model : TensorflowHub.Model nat :=
  {| TensorflowHub.run := fun _ w => (Ok (TensorflowHub.Array []), S w) |}.

Definition tf_embedder : TensorflowHub.t nat :=
  {| TensorflowHub.embed := Some batch_model;
     TensorflowHub.model_url := TensorflowHub.DEFAULT_MODEL_URL |}.

(** An endpoint embedder over the given handler, client and extra
    keywords of the invocation. *)
Definition embedder_of (h : Sagemaker.ContentHandler)
    (c : Sagemaker.Client nat) (extra : option pydict) : Sagemaker.t nat :=
  {| Sagemaker.client := Some c;
     Sagemaker.endpoint_name := "my-endpoint-name";
     Sagemaker.region_name := "us-west-2";
     Sagemaker.credentials_profile_name := None;
     Sagemaker.content_handler := h;
     Sagemaker.model_kwargs := None;
     Sagemaker.endpoint_kwargs := extra |}.

Definition interrupt : exn := Exn (NonError "KeyboardInterrupt") "".

(** An endpoint whose second call is interrupted from the keyboard. *)
Definition interrupted_client : Sagemaker.Client nat :=
  {| Sagemaker.invoke_endpoint :=
       fun req w =>
         if Nat.eqb w 1 then (Raise interrupt, S w)
         else (Ok [("Body", vector_per_char (Sagemaker.Body req))], S w);
     Sagemaker.multiple_values := Sagemaker.multiple_values good_client |}.

(** An endpoint whose answers carry no body. *)
Definition bodyless_client : Sagemaker.Client nat :=
  {| Sagemaker.invoke_endpoint :=
       fun req w => (Ok [("ResponseMetadata", PNone)], S w);
     Sagemaker.multiple_values := Sagemaker.multiple_values good_client |}.

Definition cannot_encode : exn :=
  Exn (OtherError "UnicodeEncodeError") "surrogates not allowed".

(** A handler that cannot encode a batch holding the text ["c"]. *)
Definition picky_handler : Sagemaker.ContentHandler :=
  {| Sagemaker.content_type := "application/json";
     Sagemaker.accepts := "application/json";
     Sagemaker.transform_input := fun texts _ =>
       if bool_decide ("c" ∈ texts) then Raise cannot_encode
       else Ok (String.concat "" texts);
     Sagemaker.transform_output := fun b => Ok b |}.

Definition cannot_decode : exn :=
  Exn (OtherError "JSONDecodeError") "Expecting value".

(** A handler that cannot decode any answer. *)
Definition deaf_handler : Sagemaker.ContentHandler :=
  {| Sagemaker.content_type := "application/json";
     Sagemaker.accepts := "application/json";
     Sagemaker.transform_input := fun texts _ => Ok (String.concat "" texts);
     Sagemaker.transform_output := fun _ => Raise cannot_decode |}.

End Doubles.

(** ** The chunk plan, in the words of the specification

    "Partition the input into contiguous, non-overlapping windows of the
    effective chunk size, in original order, the last window possibly
    shorter": window [j] holds the texts at positions [j * k] up to, and
    not including, [j * k + k]. *)

Module ChunkPlan.

(** How many windows of size [k] cover [n] texts. *)
Definition window_count (n k : nat) : nat := ((n + k - 1) / k)%nat.

Definition windows {A} (k : nat) (l : list A) : list (list A) :=
  (fun j => take k (drop (j * k) l)) <$> seq 0 (window_count (length l) k).

(** The effective chunk size: [chunk_size] clamped to the number of texts. *)
Definition effective (chunk_size : Z) (n : nat) : nat :=
  Z.to_nat (Z.min chunk_size (Z.of_nat n)).

End ChunkPlan.

(** ** Runs of the endpoint embedder, read off the journal *)

Module SagemakerRun.
Import Py Sagemaker.

(** The endpoint invocations among the journalled calls, in order. *)
Definition invocations (evs : list event) : list (request * outcome pydict) :=
  omap (fun ev => match ev with
                  | InvokeEndpoint req res => Some (req, res)
                  | _ => None
                  end) evs.

(** The batches handed to the content handler's [transform_input]. *)
Definition encoded_batches (evs : list event) : list (list string) :=
  omap (fun ev => match ev with
                  | TransformInput texts _ _ => Some texts
                  | _ => None
                  end) evs.

(** Calls that resolve the configuration: imports, sessions, clients. *)
Definition is_resolution (ev : event) : bool :=
  match ev with
  | ImportModule _ _ | NewSession _ _ | SessionClient _ _ _ => true
  | _ => false
  end.

(** A contiguous run of the batch [texts]. *)
Definition run_of_input (texts w : list string) : Prop :=
  exists i k : nat, w = take k (drop i texts).

(** The exception a resolving call ended with, if any. *)
Definition resolution_error (ev : event) : option exn :=
  match ev with
  | ImportModule _ err | NewSession _ err | SessionClient _ _ err => err
  | _ => None
  end.

(** What the caller of the constructor sees of an exception [e0] raised by
    the resolving call [ev]: the two [except] clauses of
    [validate_environment]. *)
Definition construction_error (ev : event) (e0 : exn) : exn :=
  match ev with
  | ImportModule _ _ => if is_ImportError e0 then import_error else e0
  | _ => if is_Exception e0 then credentials_error else e0
  end.

Section Runs.
Context {W : Type}.
Variable self : Sagemaker.t W.

(** The request [_embedding_func] builds around an encoded body. *)
Definition request_of (body : string) : request :=
  {| EndpointName := endpoint_name self;
     Body := body;
     ContentType := content_type (content_handler self);
     Accept := accepts (content_handler self);
     Extra := or_empty (endpoint_kwargs self) |}.

(** What the handler is asked to encode for a window. *)
Definition encode (w : list string) : outcome string :=
  transform_input (content_handler self) (replace_newlines <$> w)
    (or_empty (model_kwargs self)).

Definition encode_event (w : list string) : event :=
  TransformInput (replace_newlines <$> w) (or_empty (model_kwargs self))
    (encode w).

(** What the caller of [_embedding_func] sees of an exception raised
    inside the [try] block. *)
Definition surfaced (e : exn) : exn :=
  if is_Exception e then endpoint_error e else e.

(** The ways one call of [_embedding_func] on a window can go: the calls
    it journals and how it ends. *)
Inductive window_run (w : list string) : list event -> outcome pyobj -> Prop :=
  | run_encode_raises e :
      encode w = Raise e ->
      window_run w [encode_event w] (Raise e)
  | run_not_called body e :
      encode w = Ok body ->
      window_run w [encode_event w] (Raise (endpoint_error e))
  | run_call_raises body e :
      encode w = Ok body ->
      window_run w
        [encode_event w; InvokeEndpoint (request_of body) (Raise e)]
        (Raise (surfaced e))
  | run_no_body body response e :
      encode w = Ok body ->
      getitem response "Body" = Raise e ->
      window_run w
        [encode_event w; InvokeEndpoint (request_of body) (Ok response)]
        (Raise e)
  | run_decoded body response b :
      encode w = Ok body ->
      getitem response "Body" = Ok b ->
      window_run w
        [encode_event w; InvokeEndpoint (request_of body) (Ok response);
         TransformOutput b (transform_output (content_handler self) b)]
        (transform_output (content_handler self) b).

(** The ways the loop of [embed_documents] can go over the windows that
    are left, from the results gathered so far. *)
Inductive batch_run : list (list string) -> list pyobj -> list event ->
                      outcome (list pyobj) -> Prop :=
  | batch_done acc :
      batch_run [] acc [] (Ok acc)
  | batch_step w ws acc evs r evs' o :
      window_run w evs (Ok r) ->
      batch_run ws (acc ++ [r]) evs' o ->
      batch_run (w :: ws) acc (evs ++ evs') o
  | batch_abort w ws acc evs e :
      window_run w evs (Raise e) ->
      batch_run (w :: ws) acc evs (Raise e).

End Runs.

End SagemakerRun.

(** ** Runs of the local-model embedder, read off the journal *)

Module TensorflowHubRun.
Import Py TensorflowHub.

(** The arguments the loaded model was called with, in order. *)
Definition model_args (evs : list event) : list model_arg :=
  omap (fun ev => match ev with
                  | ModelCall arg _ => Some arg
                  | _ => None
                  end) evs.

(** Calls that resolve the configuration: imports and the model load. *)
Definition is_resolution (ev : event) : bool :=
  match ev with
  | ImportModule _ _ | LoadModel _ _ => true
  | ModelCall _ _ => false
  end.

(** The exception a resolving call ended with, if any. *)
Definition resolution_error (ev : event) : option exn :=
  match ev with
  | ImportModule _ err | LoadModel _ err => err
  | ModelCall _ _ => None
  end.

(** What the caller of the constructor sees of an exception [e0] raised
    inside the [try] block of [__init__]. *)
Definition construction_error (e0 : exn) : exn :=
  if is_ImportError e0 then import_error else e0.

(** The first element of a list object. *)
Definition sole_element (o : pyobj) : option pyobj :=
  match o with
  | PList [v] => Some v
  | _ => None
  end.

End TensorflowHubRun.

(** * Properties *)

(** ** Facts about the Python primitives *)

Module PyFacts.
Import Py.

Lemma chars_replace_char old new s :
  chars (replace_char old new s)
  = (fun c => if Ascii.eqb c old then new else c) <$> chars s.
Proof. induction s as [|c s IH]; simpl; [done | by rewrite IH]. Qed.

(** After the replacement no line feed is left. *)
Lemma replace_newlines_no_LF s : LF ∉ chars (replace_newlines s).
Proof.
  unfold replace_newlines. rewrite chars_replace_char.
  intros [c [Hc _]]%list_elem_of_fmap.
  destruct (Ascii.eqb c LF) eqn:E; [discriminate Hc |].
  subst c. by rewrite Ascii.eqb_refl in E.
Qed.

(** A text without line feeds is left as it is. *)
Lemma replace_newlines_id s : LF ∉ chars s -> replace_newlines s = s.
Proof.
  unfold replace_newlines. induction s as [|c s IH]; simpl; [done |].
  intros Hn. apply not_elem_of_cons in Hn as [Hc Hs].
  rewrite (IH Hs). destruct (Ascii.eqb_spec c LF); [congruence | done].
Qed.

Lemma replace_newlines_idemp s :
  replace_newlines (replace_newlines s) = replace_newlines s.
Proof. apply replace_newlines_id, replace_newlines_no_LF. Qed.

Lemma replace_newlines_length s :
  String.length (replace_newlines s) = String.length s.
Proof. unfold replace_newlines. induction s; simpl; congruence. Qed.

Lemma seqZ_0_nat (m : Z) : seqZ 0 m = Z.of_nat <$> seq 0 (Z.to_nat m).
Proof.
  unfold seqZ. apply list_fmap_ext. intros _ i _. lia.
Qed.

(** [range(0, n, k)] for a positive step: the multiples of [k] below [n]. *)
Lemma range_items_step (n k : nat) :
  (0 < k)%nat ->
  range_items 0 (Z.of_nat n) (Z.of_nat k)
  = (fun j : nat => Z.of_nat (j * k)) <$> seq 0 (ChunkPlan.window_count n k).
Proof.
  intros Hk. unfold range_items, range_len, ChunkPlan.window_count.
  rewrite seqZ_0_nat, <- list_fmap_compose.
  assert (Hlen : Z.to_nat
            (if (0 <? Z.of_nat k) && (0 <? Z.of_nat n)
             then 1 + (Z.of_nat n - 1 - 0) / Z.of_nat k
             else if (Z.of_nat k <? 0) && (Z.of_nat n <? 0)
                  then 1 + (0 - 1 - Z.of_nat n) / - Z.of_nat k
                  else 0)
          = ((n + k - 1) / k)%nat).
  { destruct n as [|n].
    - replace (0 <? Z.of_nat 0%nat) with false by done.
      rewrite andb_false_r.
      replace (Z.of_nat 0 <? 0) with false by done.
      rewrite andb_false_r. simpl.
      symmetry. apply Nat.div_small. lia.
    - replace (0 <? Z.of_nat k) with true by (symmetry; apply Z.ltb_lt; lia).
      replace (0 <? Z.of_nat (S n)) with true by (symmetry; apply Z.ltb_lt; lia).
      simpl andb. cbv iota.
      replace (S n + k - 1)%nat with (n + 1 * k)%nat by lia.
      rewrite Nat.div_add by lia.
      replace (Z.of_nat (S n) - 1 - 0) with (Z.of_nat n) by lia.
      rewrite <- Nat2Z.inj_div. lia. }
  rewrite Hlen. apply list_fmap_ext. intros _ j _. simpl. lia.
Qed.

(** [range(0, n, k)] is empty for a negative step. *)
Lemma range_items_negative_step (n : nat) (k : Z) :
  k < 0 -> range_items 0 (Z.of_nat n) k = [].
Proof.
  intros Hk. unfold range_items, range_len.
  replace (0 <? k) with false by (symmetry; apply Z.ltb_ge; lia).
  replace (Z.of_nat n <? 0) with false by (symmetry; apply Z.ltb_ge; lia).
  rewrite andb_false_r. done.
Qed.

(** A slice [l[i : i + k]] from a position inside or past the list. *)
Lemma slice_window {A} (l : list A) (i k : nat) :
  slice l (Z.of_nat i) (Z.of_nat i + Z.of_nat k) = take k (drop i l).
Proof.
  unfold slice, clamp_index.
  replace (Z.of_nat i <? 0) with false by (symmetry; apply Z.ltb_ge; lia).
  replace (Z.of_nat i + Z.of_nat k <? 0) with false
    by (symmetry; apply Z.ltb_ge; lia).
  destruct (decide (i <= length l)%nat) as [Hi | Hi].
  - replace (Z.to_nat (Z.of_nat i `min` Z.of_nat (length l))) with i by lia.
    destruct (decide (k <= length l - i)%nat) as [Hk | Hk].
    + f_equal. lia.
    + rewrite !take_ge; [done | rewrite length_drop; lia | rewrite length_drop; lia].
  - rewrite (drop_ge l i) by lia. rewrite take_nil.
    replace (Z.to_nat (Z.min (Z.of_nat i + Z.of_nat k) (Z.of_nat (length l))
                       - Z.min (Z.of_nat i) (Z.of_nat (length l))))
      with 0%nat by lia.
    done.
Qed.

End PyFacts.

(** ** The chunk plan *)

Module ChunkPlanFacts.
Import Py ChunkPlan.

Lemma window_count_bounds (n k : nat) :
  (0 < k)%nat ->
  (n <= window_count n k * k < n + k)%nat.
Proof.
  intros Hk. unfold window_count.
  pose proof (Nat.div_mod_eq (n + k - 1) k) as Hd.
  pose proof (Nat.mod_upper_bound (n + k - 1) k ltac:(lia)) as Hm.
  nia.
Qed.

Lemma length_windows {A} (k : nat) (l : list A) :
  length (windows k l) = window_count (length l) k.
Proof. unfold windows. by rewrite length_fmap, length_seq. Qed.

Lemma lookup_windows {A} (k : nat) (l : list A) (j : nat) :
  (j < window_count (length l) k)%nat ->
  windows k l !! j = Some (take k (drop (j * k) l)).
Proof.
  intros Hj. unfold windows. rewrite list_lookup_fmap, lookup_seq_lt by done.
  done.
Qed.

Lemma join_first_windows {A} (k : nat) (l : list A) (m : nat) :
  mjoin ((fun j => take k (drop (j * k) l)) <$> seq 0 m) = take (m * k) l.
Proof.
  induction m as [|m IH]; [done |].
  rewrite seq_S, fmap_app, join_app, IH. simpl. rewrite app_nil_r.
  rewrite take_take_drop. f_equal. lia.
Qed.

(** The windows, joined in order, are the input: nothing is lost,
    repeated or moved. *)
Lemma join_windows {A} (k : nat) (l : list A) :
  (0 < k)%nat -> mjoin (windows k l) = l.
Proof.
  intros Hk. unfold windows. rewrite join_first_windows.
  apply take_ge. pose proof (window_count_bounds (length l) k Hk). lia.
Qed.

(** Every window but the last is full; the last holds between one and [k]
    texts. *)
Lemma length_window {A} (k : nat) (l : list A) (j : nat) (w : list A) :
  (0 < k)%nat ->
  windows k l !! j = Some w ->
  (1 <= length w <= k)%nat /\
  (S j < length (windows k l) -> length w = k)%nat.
Proof.
  intros Hk Hw.
  assert (Hj : (j < window_count (length l) k)%nat).
  { apply lookup_lt_Some in Hw. by rewrite length_windows in Hw. }
  rewrite lookup_windows in Hw by done. injection Hw as <-.
  rewrite length_windows, length_take, length_drop.
  pose proof (window_count_bounds (length l) k Hk). nia.
Qed.

(** The windows the loop of [embed_documents] visits, for a positive
    step, are the windows of the chunk plan. *)
Lemma loop_windows {A} (l : list A) (k : nat) :
  (0 < k)%nat ->
  (fun i => slice l i (i + Z.of_nat k))
    <$> range_items 0 (Z.of_nat (length l)) (Z.of_nat k)
  = windows k l.
Proof.
  intros Hk. rewrite PyFacts.range_items_step by done.
  rewrite <- list_fmap_compose. unfold windows.
  apply list_fmap_ext. intros _ j _. simpl.
  apply PyFacts.slice_window.
Qed.

Example windows_5_by_2 :
  windows 2 ["a"; "b"; "c"; "d"; "e"] = [["a"; "b"]; ["c"; "d"]; ["e"]].
Proof. reflexivity. Qed.

Example windows_3_by_3 : windows 3 ["a"; "b"; "c"] = [["a"; "b"; "c"]].
Proof. reflexivity. Qed.

End ChunkPlanFacts.

(** ** [FakeEmbeddings] *)

Module FakeEmbeddingsFacts.
Import Py FakeEmbeddings.

Lemma range1_seq (n : nat) : range1 (Z.of_nat n) = Z.of_nat <$> seq 0 n.
Proof.
  unfold range1.
  destruct n as [|n]; [done |].
  change 1 with (Z.of_nat 1). rewrite PyFacts.range_items_step by lia.
  unfold ChunkPlan.window_count.
  replace (S n + 1 - 1)%nat with (S n) by lia. rewrite Nat.div_1_r.
  apply list_fmap_ext. intros _ j _. simpl. lia.
Qed.

Example fake_three :
  embed_documents ["a"; "b"; "c"]
  = [ [1;1;1;1;1;1;1;1;1;0]; [1;1;1;1;1;1;1;1;1;1]; [1;1;1;1;1;1;1;1;1;2] ]%float.
Proof. reflexivity. Qed.

Example fake_query : _embed_query "x" = [1;1;1;1;1;1;1;1;1;0]%float.
Proof. reflexivity. Qed.

(** C6. For every list of N texts, [FakeEmbeddings.embed_documents]
    returns exactly N vectors; the vector at position i is nine times 1.0
    followed by float(i), so every vector has ten entries; and
    [_embed_query] of any text is nine times 1.0 followed by 0.0. *)
Theorem fake_embeddings_index_encoded :
  forall texts : list string,
    length (embed_documents texts) = length texts
    /\ (forall i : nat,
          (i < length texts)%nat ->
          embed_documents texts !! i
          = Some ([1;1;1;1;1;1;1;1;1]%float ++ [float_of_int (Z.of_nat i)]))
    /\ Forall (fun v => length v = 10%nat) (embed_documents texts)
    /\ (forall text, _embed_query text = [1;1;1;1;1;1;1;1;1;0]%float).
Proof.
  intros texts. unfold embed_documents. rewrite range1_seq.
  rewrite <- list_fmap_compose.
  split; [by rewrite length_fmap, length_seq |].
  split.
  - intros i Hi. rewrite list_lookup_fmap, lookup_seq_lt by done. done.
  - split; [| done].
    apply Forall_fmap, Forall_forall. intros j _. done.
Qed.

End FakeEmbeddingsFacts.

(** ** [SagemakerEndpointEmbeddings]: how a call runs *)

Module SagemakerFacts.
Import Py Sagemaker SagemakerRun.

Section Facts.
Context {W : Type}.
Implicit Types (self : Sagemaker.t W) (s : state event W).

(** Every call of [_embedding_func] goes one of the five ways of
    [window_run], and adds the journalled calls at the end of the journal. *)
Lemma embedding_func_run self w s o s' :
  _embedding_func self w s = (o, s') ->
  exists evs, journal s' = journal s ++ evs /\ window_run self w evs o.
Proof.
  unfold _embedding_func, bind, extern, try_except, call_invoke_endpoint,
    lift, raise.
  cbn [world journal].
  fold (encode self w). fold (encode_event self w).
  destruct (encode self w) as [body|e] eqn:Henc.
  { fold (request_of self body).
    destruct (client self) as [cl|].
    - destruct (list_find _ (Extra (request_of self body))) as [[? [k ?]]|].
      + cbn. intros [= <- <-]. eexists. split; [done |]. by econstructor.
      + unfold extern. cbn [world journal].
        destruct (invoke_endpoint cl (request_of self body) (world s))
          as [[response|e] w'].
        * destruct (getitem response "Body") as [b|e] eqn:Hb.
          -- intros [= <- <-]. cbn [journal].
             exists [encode_event self w;
                     InvokeEndpoint (request_of self body) (Ok response);
                     TransformOutput b
                       (transform_output (content_handler self) b)].
             split; [by rewrite <- !app_assoc | by econstructor].
          -- intros [= <- <-]. cbn [journal].
             exists [encode_event self w;
                     InvokeEndpoint (request_of self body) (Ok response)].
             split; [by rewrite <- !app_assoc | by econstructor].
        * assert (Hs : (if is_Exception e
                        then (Raise (endpoint_error e),
                              State w' ((journal s ++ [encode_event self w])
                                ++ [InvokeEndpoint (request_of self body)
                                      (Raise e)]))
                        else (Raise e,
                              State w' ((journal s ++ [encode_event self w])
                                ++ [InvokeEndpoint (request_of self body)
                                      (Raise e)])))
                       = (Raise (surfaced e) : outcome pydict,
                          State w' ((journal s ++ [encode_event self w])
                            ++ [InvokeEndpoint (request_of self body)
                                  (Raise e)]))).
          { unfold surfaced. by destruct (is_Exception e). }
          rewrite Hs. intros [= <- <-]. cbn [journal].
          exists [encode_event self w;
                  InvokeEndpoint (request_of self body) (Raise e)].
          split; [by rewrite <- !app_assoc | by econstructor].
    - cbn. intros [= <- <-]. eexists. split; [done |]. by econstructor. }
  intros [= <- <-]. eexists. split; [done |]. by constructor.
Qed.

(** The loop of [embed_documents] over the window starts [idxs] goes one
    of the ways of [batch_run]. *)
Lemma for_each_run self (texts : list string) (k : Z) idxs acc s o s' :
  for_each idxs acc
    (fun i results =>
       response <- _embedding_func self (slice texts i (i + k)) ;;
       ret (results ++ [response])) s = (o, s') ->
  exists evs,
    journal s' = journal s ++ evs
    /\ batch_run self ((fun i => slice texts i (i + k)) <$> idxs) acc evs o.
Proof.
  revert acc s. induction idxs as [|i idxs IH]; intros acc s; simpl.
  - intros [= <- <-]. exists []. split; [by rewrite app_nil_r | constructor].
  - unfold bind at 1. unfold bind at 1.
    destruct (_embedding_func self (slice texts i (i + k)) s) as [[r|e] s1]
      eqn:Hw;
      apply embedding_func_run in Hw as (evs & Hj & Hrun).
    + unfold ret at 1. intros Hrest.
      apply IH in Hrest as (evs' & Hj' & Hrun').
      exists (evs ++ evs'). split.
      * by rewrite Hj', Hj, app_assoc.
      * by econstructor.
    + intros [= <- <-]. exists evs. split; [done | by constructor].
Qed.

(** [embed_documents], run: a zero effective step raises before any call;
    otherwise the loop runs over the slices at the items of the range. *)
Lemma embed_documents_run self texts chunk_size s o s' :
  embed_documents self texts chunk_size s = (o, s') ->
  let n := Z.of_nat (length texts) in
  let k := if n <? chunk_size then n else chunk_size in
  (k = 0 /\ s' = s
   /\ o = Raise (Exn ValueError "range() arg 3 must not be zero"))
  \/ (k <> 0 /\ exists evs,
        journal s' = journal s ++ evs
        /\ batch_run self
             ((fun i => slice texts i (i + k)) <$> range_items 0 n k)
             [] evs o).
Proof.
  intros Hrun n k. unfold embed_documents, range3 in Hrun.
  cbv zeta in Hrun. fold n in Hrun. fold k in Hrun.
  unfold bind at 1, lift in Hrun.
  destruct (Z.eqb_spec k 0) as [Hk | Hk].
  - left. by injection Hrun as <- <-.
  - right. split; [done |]. by apply for_each_run in Hrun.
Qed.

(** *** What a run of one window journals *)

Lemma window_run_encoded self w evs o :
  window_run self w evs o -> encoded_batches evs = [replace_newlines <$> w].
Proof. by destruct 1. Qed.

Lemma window_run_no_resolution self w evs o :
  window_run self w evs o -> Forall (fun ev => is_resolution ev = false) evs.
Proof. destruct 1; repeat constructor. Qed.

Lemma window_run_at_most_once self w evs o :
  window_run self w evs o -> (length (invocations evs) <= 1)%nat.
Proof. destruct 1; simpl; lia. Qed.

(** A window that returns was sent to the endpoint exactly once, and the
    endpoint answered. *)
Lemma window_run_ok self w evs r :
  window_run self w evs (Ok r) ->
  exists body response,
    encode self w = Ok body
    /\ invocations evs = [(request_of self body, Ok response)].
Proof.
  inversion 1; subst; eauto.
Qed.

(** Every invocation of a window carries the encoding of that window. *)
Lemma window_run_invocation self w evs o req res :
  window_run self w evs o ->
  (req, res) ∈ invocations evs ->
  exists body, encode self w = Ok body /\ req = request_of self body.
Proof.
  destruct 1; simpl; intros Hin;
    repeat (apply elem_of_cons in Hin as [Hin | Hin]);
    try (by apply elem_of_nil in Hin);
    injection Hin as -> ->; eauto.
Qed.

(** An invocation that raises ends the window: it is the last call
    journalled, and the window raises what the [except] clause makes of
    the exception. *)
Lemma window_run_raise self w evs o req e :
  window_run self w evs o ->
  (req, Raise e) ∈ invocations evs ->
  o = Raise (surfaced e)
  /\ exists pre, evs = pre ++ [InvokeEndpoint req (Raise e)]
                 /\ invocations pre = [].
Proof.
  destruct 1; simpl; intros Hin;
    repeat (apply elem_of_cons in Hin as [Hin | Hin]);
    try (by apply elem_of_nil in Hin);
    try discriminate Hin.
  injection Hin as -> ->. split; [done |].
  by exists [encode_event self w].
Qed.

Lemma invocations_app evs evs' :
  invocations (evs ++ evs') = invocations evs ++ invocations evs'.
Proof. unfold invocations. apply omap_app. Qed.

Lemma encoded_batches_app evs evs' :
  encoded_batches (evs ++ evs') = encoded_batches evs ++ encoded_batches evs'.
Proof. unfold encoded_batches. apply omap_app. Qed.

(** *** What a run of the loop journals *)

Lemma batch_run_no_resolution self ws acc evs o :
  batch_run self ws acc evs o ->
  Forall (fun ev => is_resolution ev = false) evs.
Proof.
  induction 1 as [| w ws acc evs r evs' o Hw _ IH | w ws acc evs e Hw].
  - constructor.
  - apply Forall_app. eauto using window_run_no_resolution.
  - eauto using window_run_no_resolution.
Qed.

(** The batches encoded are those of the windows reached, in order. *)
Lemma batch_run_encoded self ws acc evs o :
  batch_run self ws acc evs o ->
  exists reached,
    reached `prefix_of` ws
    /\ encoded_batches evs
       = (fun w : list string => replace_newlines <$> w) <$> reached
    /\ (is_Ok o = true -> reached = ws).
Proof.
  induction 1 as [| w ws acc evs r evs' o Hw _ IH | w ws acc evs e Hw].
  - by exists [].
  - destruct IH as (reached & Hpre & Henc & Hall).
    exists (w :: reached). split; [by apply prefix_cons |].
    rewrite encoded_batches_app, (window_run_encoded _ _ _ _ Hw), Henc.
    split; [done |]. intros Hok. by rewrite Hall.
  - exists [w]. split.
    + by exists ws.
    + by rewrite (window_run_encoded _ _ _ _ Hw).
Qed.

(** A loop that returns has sent every window to the endpoint exactly
    once, in order, and gathered one result per window. *)
Lemma batch_run_ok self ws acc evs rs :
  batch_run self ws acc evs (Ok rs) ->
  (exists rs', rs = acc ++ rs' /\ length rs' = length ws)
  /\ Forall2 (fun w inv => exists body response,
                encode self w = Ok body
                /\ inv = (request_of self body, Ok response))
       ws (invocations evs).
Proof.
  remember (Ok rs) as o eqn:Ho.
  induction 1 as [| w ws acc evs r evs' o Hw _ IH | w ws acc evs e Hw].
  - injection Ho as ->. split; [| constructor].
    exists []. by rewrite app_nil_r.
  - destruct (IH Ho) as [(rs' & -> & Hlen) Hinv]. split.
    + exists (r :: rs'). rewrite <- app_assoc. split; [done |]. simpl. lia.
    + rewrite invocations_app.
      destruct (window_run_ok _ _ _ _ Hw) as (body & response & Hb & ->).
      constructor; eauto.
  - discriminate Ho.
Qed.

(** An invocation that raises ends the loop: it is the last call
    journalled, and the loop raises. *)
Lemma batch_run_raise self ws acc evs o req e :
  batch_run self ws acc evs o ->
  (req, Raise e) ∈ invocations evs ->
  o = Raise (surfaced e)
  /\ exists pre, evs = pre ++ [InvokeEndpoint req (Raise e)]
                 /\ (req, Raise e) ∉ invocations pre.
Proof.
  induction 1 as [| w ws acc evs r evs' o Hw _ IH | w ws acc evs e' Hw].
  - by intros ?%elem_of_nil.
  - rewrite invocations_app. intros [Hin | Hin]%elem_of_app.
    + by destruct (window_run_raise _ _ _ _ _ _ Hw Hin) as [? _].
    + destruct (IH Hin) as (-> & pre & -> & Hpre). split; [done |].
      exists (evs ++ pre). split; [by rewrite app_assoc |].
      rewrite invocations_app. intros [Hin' | Hin']%elem_of_app; [| done].
      by destruct (window_run_raise _ _ _ _ _ _ Hw Hin') as [? _].
  - intros Hin.
    destruct (window_run_raise _ _ _ _ _ _ Hw Hin) as (He & pre & -> & Hpre).
    injection He as ->.
    split; [done |]. exists pre. split; [done |].
    rewrite Hpre. by intros ?%elem_of_nil.
Qed.

End Facts.

End SagemakerFacts.

(** ** [SagemakerEndpointEmbeddings]: results, windows and errors *)

Module SagemakerResults.
Import Py Sagemaker SagemakerRun SagemakerFacts ChunkPlan Doubles.

(** For a non-empty batch and a chunk size of at least one, the step of
    the loop is the effective chunk size, and the loop visits the windows
    of the chunk plan. *)
Lemma embed_documents_plan {W} (self : Sagemaker.t W) texts chunk_size s o s' :
  texts <> [] ->
  1 <= chunk_size ->
  embed_documents self texts chunk_size s = (o, s') ->
  (0 < effective chunk_size (length texts))%nat
  /\ exists evs,
       journal s' = journal s ++ evs
       /\ batch_run self (windows (effective chunk_size (length texts)) texts)
            [] evs o.
Proof.
  intros Hne Hcs Hrun.
  assert (Hn : (0 < length texts)%nat) by (destruct texts; [done | simpl; lia]).
  apply embed_documents_run in Hrun. cbv zeta in Hrun.
  assert (Hk : (if Z.of_nat (length texts) <? chunk_size
                then Z.of_nat (length texts) else chunk_size)
               = Z.of_nat (effective chunk_size (length texts))).
  { unfold effective.
    destruct (Z.ltb_spec (Z.of_nat (length texts)) chunk_size); lia. }
  rewrite Hk in Hrun. split; [unfold effective; lia |].
  destruct Hrun as [(Hz & _) | (_ & evs & Hj & Hb)].
  - unfold effective in Hz. lia.
  - exists evs. split; [done |].
    rewrite ChunkPlanFacts.loop_windows in Hb; [done |]. unfold effective. lia.
Qed.

(** A call that returns holds one entry per window, not one per text. *)
Lemma embed_documents_length {W} (self : Sagemaker.t W) texts chunk_size s rs s' :
  texts <> [] ->
  1 <= chunk_size ->
  embed_documents self texts chunk_size s = (Ok rs, s') ->
  length rs
  = window_count (length texts) (effective chunk_size (length texts)).
Proof.
  intros Hne Hcs Hrun.
  destruct (embed_documents_plan _ _ _ _ _ _ Hne Hcs Hrun)
    as (_ & evs & _ & Hb).
  apply batch_run_ok in Hb as [(rs' & -> & Hlen) _].
  simpl. by rewrite Hlen, ChunkPlanFacts.length_windows.
Qed.

(** C1, at the input that shows the defect.  With three texts and the
    default chunk size of 64, against an endpoint that answers with one
    vector per text, [embed_documents] returns a list of length one, whose
    only entry is the whole answer of the single window: the result has
    one entry per window ([results.append(response)]), not one per text as
    the docstring of the method promises. *)
Theorem embed_documents_three_texts_one_entry :
  fst (embed_documents (embedder good_client) ["a"; "b"; "c"]
         default_chunk_size start)
  = Ok [PList [PList [PFloat 0]; PList [PFloat 0]; PList [PFloat 0]]]
  /\ length [PList [PList [PFloat 0]; PList [PFloat 0]; PList [PFloat 0]]]
     <> length ["a"; "b"; "c"].
Proof. split; [reflexivity | discriminate]. Qed.

(** C2, at the input that shows the defect.  On the empty batch with the
    default chunk size, the step of the loop is clamped to the number of
    texts, zero, and [range(0, 0, 0)] raises: [embed_documents] does not
    return the empty list.  No call is journalled and the world is
    untouched. *)
Theorem embed_documents_empty_batch_raises :
  forall (W : Type) (self : Sagemaker.t W) (s : state event W),
    embed_documents self [] default_chunk_size s
    = (Raise (Exn ValueError "range() arg 3 must not be zero"), s).
Proof. reflexivity. Qed.

(** The same holds for every chunk size that is not negative. *)
Lemma embed_documents_empty_batch {W} (self : Sagemaker.t W) chunk_size s :
  0 <= chunk_size ->
  embed_documents self [] chunk_size s
  = (Raise (Exn ValueError "range() arg 3 must not be zero"), s).
Proof.
  intros Hcs. unfold embed_documents. simpl length.
  destruct (Z.ltb_spec (Z.of_nat 0) chunk_size) as [H | H]; [done |].
  replace chunk_size with 0 by lia. done.
Qed.

(** C3. For a non-empty batch of N texts and a chunk size of at least one,
    a call of [embed_documents] that returns has cut the batch into the
    contiguous windows of size min(chunk_size, N), which joined in order
    give back the batch, every window but the last full and the last
    holding between one and min(chunk_size, N) texts, and has invoked the
    endpoint exactly once per window, in order, with the encoding of that
    window; with chunk size 2 and 5 texts the windows have sizes 2, 2, 1
    (three invocations), with chunk size 64 and 3 texts there is the one
    window of size 3 (one invocation). *)
Theorem embed_documents_one_invocation_per_window :
  forall (W : Type) (self : Sagemaker.t W) (texts : list string)
         (chunk_size : Z) (s s' : state event W) (rs : list pyobj),
    texts <> [] ->
    1 <= chunk_size ->
    embed_documents self texts chunk_size s = (Ok rs, s') ->
    let k := effective chunk_size (length texts) in
    let ws := windows k texts in
    Z.of_nat k = Z.min chunk_size (Z.of_nat (length texts))
    /\ mjoin ws = texts
    /\ (forall j w, ws !! j = Some w ->
          (1 <= length w <= k)%nat
          /\ (S j < length ws -> length w = k)%nat)
    /\ (exists evs,
          journal s' = journal s ++ evs
          /\ Forall2 (fun w inv => exists body response,
                        encode self w = Ok body
                        /\ inv = (request_of self body, Ok response))
               ws (invocations evs))
    /\ (chunk_size = 2 -> length texts = 5%nat ->
        length <$> ws = [2; 2; 1]%nat)
    /\ (chunk_size = 64 -> length texts = 3%nat ->
        length <$> ws = [3]%nat).
Proof.
  intros W self texts chunk_size s s' rs Hne Hcs Hrun k ws.
  destruct (embed_documents_plan _ _ _ _ _ _ Hne Hcs Hrun)
    as (Hk & evs & Hj & Hb).
  fold k in Hk, Hb. fold ws in Hb.
  split; [unfold k, effective; lia |].
  split; [by apply ChunkPlanFacts.join_windows |].
  split; [intros j w Hw; by apply ChunkPlanFacts.length_window |].
  split.
  { exists evs. split; [done |]. by apply batch_run_ok in Hb as [_ Hinv]. }
  split.
  - intros -> Hlen. subst ws k. rewrite Hlen.
    destruct texts as [|t1 [|t2 [|t3 [|t4 [|t5 [|]]]]]]; try discriminate Hlen.
    reflexivity.
  - intros -> Hlen. subst ws k. rewrite Hlen.
    destruct texts as [|t1 [|t2 [|t3 [|]]]]; try discriminate Hlen.
    reflexivity.
Qed.

Lemma embed_documents_one_invocation_per_window_witness :
  let texts := ["a"; "b"; "c"; "d"; "e"] in
  let run := embed_documents (embedder good_client) texts 2 start in
  texts <> [] /\ 1 <= 2 /\ is_Ok (fst run) = true
  /\ length <$> windows (effective 2 (length texts)) texts = [2; 2; 1]%nat.
Proof.
  intros texts run.
  split; [discriminate |]. split; [lia |]. split; [reflexivity |].
  eassert (Hrun : run = (Ok _, _)) by (vm_compute; reflexivity).
  destruct (embed_documents_one_invocation_per_window
              nat (embedder good_client) texts 2 start _ _
              ltac:(discriminate) ltac:(lia) Hrun)
    as (_ & _ & _ & _ & Hsizes & _).
  apply Hsizes; reflexivity.
Defined.

(** C5. Whenever an invocation of the endpoint made during
    [embed_documents] raises an error, the call raises, at once, the
    [ValueError] whose text names the inference endpoint and carries the
    text of the error: no result list is returned, the failed invocation
    is the last call journalled (it is not made again, and no later window
    is encoded or sent). *)
Theorem embed_documents_aborts_on_endpoint_error :
  forall (W : Type) (self : Sagemaker.t W) (texts : list string)
         (chunk_size : Z) (s s' : state event W) (o : outcome (list pyobj))
         (evs : list event) (req : request) (e : exn),
    embed_documents self texts chunk_size s = (o, s') ->
    journal s' = journal s ++ evs ->
    (req, Raise e) ∈ invocations evs ->
    is_Exception e = true ->
    o = Raise (Exn ValueError
                 ("Error raised by inference endpoint: " +:+ exn_str e))
    /\ exists pre,
         evs = pre ++ [InvokeEndpoint req (Raise e)]
         /\ (req, Raise e) ∉ invocations pre.
Proof.
  intros W self texts chunk_size s s' o evs req e Hrun Hj Hin He.
  apply embed_documents_run in Hrun. cbv zeta in Hrun.
  destruct Hrun as [(_ & -> & _) | (_ & evs' & Hj' & Hb)].
  - assert (evs = []) as ->.
    { apply (app_inv_head (journal s)). by rewrite app_nil_r. }
    by apply elem_of_nil in Hin.
  - assert (evs' = evs) as ->.
    { apply (app_inv_head (journal s)). congruence. }
    destruct (batch_run_raise _ _ _ _ _ _ _ Hb Hin) as (-> & Hlast).
    split; [| done]. unfold surfaced. by rewrite He.
Qed.

Lemma embed_documents_aborts_on_endpoint_error_witness :
  let run := embed_documents (embedder flaky_client)
               ["a"; "b"; "c"; "d"; "e"] 2 start in
  is_Exception timeout = true
  /\ fst run
     = Raise (Exn ValueError
                "Error raised by inference endpoint: Read timed out")
  /\ length (invocations (journal (snd run))) = 2%nat.
Proof.
  intros run. split; [reflexivity |]. split; [| reflexivity].
  refine (proj1 (embed_documents_aborts_on_endpoint_error
                   nat (embedder flaky_client) ["a"; "b"; "c"; "d"; "e"] 2
                   start (snd run) (fst run) (journal (snd run))
                   (request_of (embedder flaky_client) "cd") timeout
                   _ _ _ _)).
  - reflexivity.
  - reflexivity.
  - vm_compute. apply list_elem_of_further, list_elem_of_here.
  - reflexivity.
Defined.

(** An invocation that raises outside [Exception] ends the call the same
    way, unwrapped. *)
Lemma embed_documents_aborts_on_interrupt
  {W} (self : Sagemaker.t W) texts chunk_size s s' o evs req e :
  embed_documents self texts chunk_size s = (o, s') ->
  journal s' = journal s ++ evs ->
  (req, Raise e) ∈ invocations evs ->
  is_Exception e = false ->
  o = Raise e /\ exists pre, evs = pre ++ [InvokeEndpoint req (Raise e)].
Proof.
  intros Hrun Hj Hin He.
  apply embed_documents_run in Hrun. cbv zeta in Hrun.
  destruct Hrun as [(_ & -> & _) | (_ & evs' & Hj' & Hb)].
  - assert (evs = []) as ->.
    { apply (app_inv_head (journal s)). by rewrite app_nil_r. }
    by apply elem_of_nil in Hin.
  - assert (evs' = evs) as ->.
    { apply (app_inv_head (journal s)). congruence. }
    destruct (batch_run_raise _ _ _ _ _ _ _ Hb Hin) as (-> & pre & -> & _).
    split; [| by exists pre]. unfold surfaced. by rewrite He.
Qed.

(** C10. For a non-empty batch, a negative chunk size makes
    [embed_documents] return the empty list without any call (the range
    with a negative step is empty) and without raising; the chunk size
    zero makes it raise the [ValueError] of the zero-step range, again
    without any call. *)
Theorem embed_documents_nonpositive_chunk_size :
  forall (W : Type) (self : Sagemaker.t W) (texts : list string)
         (chunk_size : Z) (s : state event W),
    texts <> [] ->
    (chunk_size < 0 -> embed_documents self texts chunk_size s = (Ok [], s))
    /\ embed_documents self texts 0 s
       = (Raise (Exn ValueError "range() arg 3 must not be zero"), s).
Proof.
  intros W self texts chunk_size s Hne.
  assert (Hn : 0 < Z.of_nat (length texts)).
  { destruct texts; [done | simpl; lia]. }
  split.
  - intros Hcs. unfold embed_documents.
    replace (Z.of_nat (length texts) <? chunk_size) with false
      by (symmetry; apply Z.ltb_ge; lia).
    unfold range3.
    replace (chunk_size =? 0) with false by (symmetry; apply Z.eqb_neq; lia).
    unfold bind at 1, lift.
    by rewrite PyFacts.range_items_negative_step.
  - unfold embed_documents.
    replace (Z.of_nat (length texts) <? 0) with false
      by (symmetry; apply Z.ltb_ge; lia).
    done.
Qed.

Lemma embed_documents_nonpositive_chunk_size_witness :
  ["a"; "b"] <> []
  /\ (embed_documents (embedder good_client) ["a"; "b"] (-3) start
      = (Ok [], start))
  /\ embed_documents (embedder good_client) ["a"; "b"] 0 start
     = (Raise (Exn ValueError "range() arg 3 must not be zero"), start).
Proof.
  split; [discriminate |].
  destruct (embed_documents_nonpositive_chunk_size
              nat (embedder good_client) ["a"; "b"] (-3) start
              ltac:(discriminate)) as [Hneg Hzero].
  split; [apply Hneg; lia | exact Hzero].
Defined.

(** C7. The query path is the window path on the one-element batch:
    [_embed_query] of a text is [_embedding_func] of the list holding that
    text, so it encodes the one normalised text, invokes the endpoint at
    most once, exactly once when it returns, and returns what the output
    transform makes of the answer. *)
Theorem embed_query_is_single_window :
  forall (W : Type) (self : Sagemaker.t W) (text : string)
         (s : state event W),
    _embed_query self text s = _embedding_func self [text] s
    /\ exists evs,
         journal (snd (_embed_query self text s)) = journal s ++ evs
         /\ window_run self [text] evs (fst (_embed_query self text s))
         /\ encoded_batches evs = [[replace_newlines text]]
         /\ (length (invocations evs) <= 1)%nat
         /\ (is_Ok (fst (_embed_query self text s)) = true ->
             exists body response,
               encode self [text] = Ok body
               /\ invocations evs = [(request_of self body, Ok response)]).
Proof.
  intros W self text s. split; [reflexivity |].
  unfold _embed_query.
  destruct (_embedding_func self [text] s) as [o s'] eqn:Hrun.
  apply embedding_func_run in Hrun as (evs & Hj & Hw).
  exists evs. simpl. split; [done |]. split; [done |].
  split; [by rewrite (window_run_encoded _ _ _ _ Hw) |].
  split; [by eapply window_run_at_most_once |].
  destruct o as [r|e]; [| discriminate].
  intros _. by eapply window_run_ok.
Qed.

(** The two chunkings the specification lists, run against the endpoint
    that answers every request. *)
Example five_texts_by_two :
  let run := embed_documents (embedder good_client)
               ["a"; "b"; "c"; "d"; "e"] 2 start in
  (fun inv => String.length (Body (fst inv)))
    <$> invocations (journal (snd run)) = [2; 2; 1]%nat
  /\ length <$> encoded_batches (journal (snd run)) = [2; 2; 1]%nat.
Proof. split; reflexivity. Qed.

Example three_texts_by_default :
  let run := embed_documents (embedder good_client)
               ["a"; "b"; "c"] default_chunk_size start in
  (fun inv => String.length (Body (fst inv)))
    <$> invocations (journal (snd run)) = [3]%nat
  /\ length <$> encoded_batches (journal (snd run)) = [3]%nat.
Proof. split; reflexivity. Qed.

(** A line feed in a text is a space in the body sent. *)
Example line_feed_sent_as_space :
  let run := _embed_query (embedder good_client)
               ("a" +:+ String LF "b") start in
  Body <$> (fst <$> invocations (journal (snd run))) = ["a b"].
Proof. reflexivity. Qed.

End SagemakerResults.

(** ** [TensorflowHubEmbeddings] *)

Module TensorflowHubFacts.
Import Py TensorflowHub TensorflowHubRun Doubles.

(** [embed_documents], run: one call of the model, with the list of the
    normalised texts. *)
Lemma model_embed_documents_run {W} (self : TensorflowHub.t W) texts s :
  embed_documents self texts s
  = match embed self with
    | None => (Raise (Exn TypeError "'NoneType' object is not callable"), s)
    | Some m =>
        let arg := ArgList (replace_newlines <$> texts) in
        let (o, w') := run m arg (world s) in
        (match o with Ok a => Ok (tolist a) | Raise e => Raise e end,
         State w' (journal s ++ [ModelCall arg o]))
    end.
Proof.
  unfold embed_documents, call_embed, bind, extern, raise, ret.
  destruct (embed self) as [m|]; [| done].
  by destruct (run m _ (world s)) as [[a|e] w'].
Qed.

(** [_embed_query], run: one call of the model, with the normalised text
    itself, then the first item of what it returns. *)
Lemma model_embed_query_run {W} (self : TensorflowHub.t W) text s :
  _embed_query self text s
  = match embed self with
    | None => (Raise (Exn TypeError "'NoneType' object is not callable"), s)
    | Some m =>
        let arg := ArgStr (replace_newlines text) in
        let (o, w') := run m arg (world s) in
        (match o with
         | Ok a => match getitem0 a with
                   | Ok row => Ok (tolist row)
                   | Raise e => Raise e
                   end
         | Raise e => Raise e
         end,
         State w' (journal s ++ [ModelCall arg o]))
    end.
Proof.
  unfold _embed_query, call_embed, bind, extern, raise, ret, lift.
  destruct (embed self) as [m|]; [| done].
  destruct (run m _ (world s)) as [[a|e] w']; [| done].
  by destruct (getitem0 a).
Qed.

(** What the model is called with on the two paths. *)
Lemma model_embed_documents_args {W} (self : TensorflowHub.t W) texts s :
  exists evs,
    journal (snd (embed_documents self texts s)) = journal s ++ evs
    /\ Forall (fun ev => is_resolution ev = false) evs
    /\ model_args evs
       = match embed self with
         | Some _ => [ArgList (replace_newlines <$> texts)]
         | None => []
         end.
Proof.
  rewrite model_embed_documents_run. destruct (embed self) as [m|].
  - cbv zeta. destruct (run m _ (world s)) as [o w'].
    eexists. split; [done |]. split; [| done]. by repeat constructor.
  - exists []. by rewrite app_nil_r.
Qed.

Lemma model_embed_query_args {W} (self : TensorflowHub.t W) text s :
  exists evs,
    journal (snd (_embed_query self text s)) = journal s ++ evs
    /\ Forall (fun ev => is_resolution ev = false) evs
    /\ model_args evs
       = match embed self with
         | Some _ => [ArgStr (replace_newlines text)]
         | None => []
         end.
Proof.
  rewrite model_embed_query_run. destruct (embed self) as [m|].
  - cbv zeta. destruct (run m _ (world s)) as [o w'].
    eexists. split; [done |]. split; [| done]. by repeat constructor.
  - exists []. by rewrite app_nil_r.
Qed.

(** C8, at the input that shows the defect.  [_embed_query] calls the
    model with the normalised text itself, a bare string, and not with the
    one-element list holding it: against a model that embeds batches of
    strings and rejects any other argument, the query for ["a"] raises,
    while [embed_documents] of the one-element list returns its sole
    vector.  The query embedding is therefore not the sole element of
    [embed_documents] on the one-element list. *)
Theorem embed_query_calls_model_with_bare_string :
  _embed_query tf_embedder "a" start
  = (Raise (Exn ValueError
              "Could not find matching concrete function to call loaded from the SavedModel."),
     State 1%nat
       [ModelCall (ArgStr "a")
          (Raise (Exn ValueError
                    "Could not find matching concrete function to call loaded from the SavedModel."))])
  /\ embed_documents tf_embedder ["a"] start
     = (Ok (PList [PList [PFloat 1]]),
        State 1%nat
          [ModelCall (ArgList ["a"])
             (Ok (Array [Array [Scalar 1]]))])
  /\ sole_element (PList [PList [PFloat 1]]) = Some (PList [PFloat 1]).
Proof. repeat split; reflexivity. Qed.

End TensorflowHubFacts.

(** ** Newline normalisation on every path *)

Module Normalization.
Import Py.

Section Endpoint.
Import Sagemaker SagemakerRun SagemakerFacts.
Context {W : Type}.
Variable self : Sagemaker.t W.
Variable texts : list string.

Lemma slice_run_of_input (i j : Z) : run_of_input texts (slice texts i j).
Proof. unfold slice. by eexists _, _. Qed.

(** In a run of the loop over runs of the input, every batch handed to
    the handler is a run of the input with its line feeds replaced, and
    every body sent to the endpoint is the handler's encoding of such a
    batch. *)
Lemma batch_run_normalised ws acc evs o :
  batch_run self ws acc evs o ->
  Forall (run_of_input texts) ws ->
  Forall (fun batch => exists w,
            run_of_input texts w /\ batch = replace_newlines <$> w)
    (encoded_batches evs)
  /\ Forall (fun inv => exists w,
               run_of_input texts w /\ encode self w = Ok (Body (fst inv)))
       (invocations evs).
Proof.
  induction 1 as [| w ws acc evs r evs' o Hw _ IH | w ws acc evs e Hw];
    intros Hws.
  - by split; constructor.
  - apply Forall_cons in Hws as [Hw0 Hws]. destruct (IH Hws) as [IH1 IH2].
    rewrite encoded_batches_app, invocations_app.
    rewrite (window_run_encoded _ _ _ _ Hw).
    split.
    + constructor; [by exists w | done].
    + apply Forall_app. split; [| done].
      apply Forall_forall. intros [req res] Hin.
      destruct (window_run_invocation _ _ _ _ _ _ Hw Hin) as (body & Hb & ->).
      by exists w.
  - apply Forall_cons in Hws as [Hw0 _].
    rewrite (window_run_encoded _ _ _ _ Hw).
    split.
    + constructor; [by exists w | constructor].
    + apply Forall_forall. intros [req res] Hin.
      destruct (window_run_invocation _ _ _ _ _ _ Hw Hin) as (body & Hb & ->).
      by exists w.
Qed.

Lemma embed_documents_normalised chunk_size s :
  exists evs,
    journal (snd (embed_documents self texts chunk_size s)) = journal s ++ evs
    /\ Forall (fun batch => exists w,
                 run_of_input texts w /\ batch = replace_newlines <$> w)
         (encoded_batches evs)
    /\ Forall (fun inv => exists w,
                 run_of_input texts w /\ encode self w = Ok (Body (fst inv)))
         (invocations evs).
Proof.
  destruct (embed_documents self texts chunk_size s) as [o s'] eqn:Hrun.
  apply embed_documents_run in Hrun. cbv zeta in Hrun.
  destruct Hrun as [(_ & -> & _) | (_ & evs & Hj & Hb)].
  - exists []. simpl. rewrite app_nil_r. by repeat split; constructor.
  - exists evs. split; [done |].
    apply (batch_run_normalised _ _ _ _ Hb).
    apply Forall_fmap, Forall_forall. intros i _. apply slice_run_of_input.
Qed.

End Endpoint.

(** C4. On every path the text that reaches the backend is the input text
    with each line feed replaced by a space and every other character kept,
    so it holds no line feed.  In the endpoint embedder every batch handed
    to the content handler by [embed_documents] is a contiguous run of the
    input with [replace_newlines] applied to each text, and every body sent
    to the endpoint is the handler's encoding of such a batch;
    [_embed_query] hands over the one-element batch of the normalised text.
    In the local-model embedder [embed_documents] calls the model with the
    list of the normalised texts and [_embed_query] with the normalised
    text.  The same [replace_newlines] is applied on the four paths. *)
Theorem newlines_replaced_before_backend :
  (forall t : string,
      chars (replace_newlines t)
      = (fun c => if Ascii.eqb c LF then SP else c) <$> chars t
      /\ LF ∉ chars (replace_newlines t))
  /\ (forall (W : Type) (self : Sagemaker.t W) (texts : list string)
             (chunk_size : Z) (s : state Sagemaker.event W),
        exists evs,
          journal (snd (Sagemaker.embed_documents self texts chunk_size s))
          = journal s ++ evs
          /\ Forall (fun batch => exists (i k : nat),
                       batch = replace_newlines <$> take k (drop i texts))
               (SagemakerRun.encoded_batches evs)
          /\ Forall (fun inv => exists (i k : nat),
                       SagemakerRun.encode self (take k (drop i texts))
                       = Ok (Sagemaker.Body (fst inv)))
               (SagemakerRun.invocations evs))
  /\ (forall (W : Type) (self : Sagemaker.t W) (text : string)
             (s : state Sagemaker.event W),
        exists evs,
          journal (snd (Sagemaker._embed_query self text s)) = journal s ++ evs
          /\ SagemakerRun.encoded_batches evs = [[replace_newlines text]]
          /\ Forall (fun inv =>
                       SagemakerRun.encode self [text]
                       = Ok (Sagemaker.Body (fst inv)))
               (SagemakerRun.invocations evs))
  /\ (forall (W : Type) (self : TensorflowHub.t W) (texts : list string)
             (s : state TensorflowHub.event W),
        exists evs,
          journal (snd (TensorflowHub.embed_documents self texts s))
          = journal s ++ evs
          /\ Forall (fun arg =>
                       arg = TensorflowHub.ArgList (replace_newlines <$> texts))
               (TensorflowHubRun.model_args evs))
  /\ (forall (W : Type) (self : TensorflowHub.t W) (text : string)
             (s : state TensorflowHub.event W),
        exists evs,
          journal (snd (TensorflowHub._embed_query self text s))
          = journal s ++ evs
          /\ Forall (fun arg =>
                       arg = TensorflowHub.ArgStr (replace_newlines text))
               (TensorflowHubRun.model_args evs)).
Proof.
  split; [| split; [| split; [| split]]].
  - intros t. split; [apply PyFacts.chars_replace_char
                     | apply PyFacts.replace_newlines_no_LF].
  - intros W self texts chunk_size s.
    destruct (embed_documents_normalised self texts chunk_size s)
      as (evs & Hj & Hb & Hi).
    exists evs. split; [done |]. split.
    + eapply Forall_impl; [exact Hb |].
      intros batch (w & (i & k & ->) & ->). by exists i, k.
    + eapply Forall_impl; [exact Hi |].
      intros inv (w & (i & k & ->) & Henc). by exists i, k.
  - intros W self text s. unfold Sagemaker._embed_query.
    destruct (Sagemaker._embedding_func self [text] s) as [o s'] eqn:Hrun.
    apply SagemakerFacts.embedding_func_run in Hrun as (evs & Hj & Hw).
    exists evs. split; [done |].
    split; [by rewrite (SagemakerFacts.window_run_encoded _ _ _ _ Hw) |].
    apply Forall_forall. intros [req res] Hin.
    by destruct (SagemakerFacts.window_run_invocation _ _ _ _ _ _ Hw Hin)
      as (body & Hb & ->).
  - intros W self texts s.
    destruct (TensorflowHubFacts.model_embed_documents_args self texts s)
      as (evs & Hj & _ & Hargs).
    exists evs. split; [done |]. rewrite Hargs.
    destruct (TensorflowHub.embed self); by repeat constructor.
  - intros W self text s.
    destruct (TensorflowHubFacts.model_embed_query_args self text s)
      as (evs & Hj & _ & Hargs).
    exists evs. split; [done |]. rewrite Hargs.
    destruct (TensorflowHub.embed self); by repeat constructor.
Qed.

End Normalization.

(** ** Construction *)

Module Construction.
Import Py Doubles.

Lemma not_Exception_not_ImportError e :
  is_Exception e = false -> is_ImportError e = false.
Proof. destruct e as [[] msg]; done. Qed.

(** A resolving call [ev] of the credentials stage raised [e0] after the
    calls [pre] had returned. *)
Ltac credentials_stage e0 pre ev :=
  let He := fresh "He" in
  destruct (is_Exception e0) eqn:He;
  [| rewrite (not_Exception_not_ImportError _ He)];
  simpl;
  (eexists; split; [by rewrite <- !app_assoc |]);
  exists pre, ev, e0; simpl; rewrite ?He;
  by repeat split; repeat constructor.

(** A resolving call [ev] of [__init__] raised [e0] after the calls [pre]
    had returned. *)
Ltac import_stage e0 pre ev :=
  let He := fresh "He" in
  destruct (is_ImportError e0) eqn:He; simpl;
  (eexists; split; [by rewrite <- ?app_assoc |]);
  exists pre, ev, e0; unfold TensorflowHubRun.construction_error;
  rewrite He; simpl;
  by repeat split; repeat constructor.

(** How the construction of the endpoint embedder runs: the three
    resolving calls in order, each made once and only when the ones before
    returned; an instance exists only when all three returned, and then its
    client is the one the session gave; otherwise the constructor raises
    what the [except] clauses make of the first failure. *)
Lemma sagemaker_construct_run {W} (env : Sagemaker.Env W)
    (values : Sagemaker.t W) (s : state Sagemaker.event W) :
  exists evs,
    journal (snd (Sagemaker.instantiate env values s)) = journal s ++ evs
    /\ match fst (Sagemaker.instantiate env values s) with
       | Ok inst =>
           (exists c, inst = Sagemaker.set_client values c
                      /\ Sagemaker.client inst = Some c)
           /\ evs = [Sagemaker.ImportModule "boto3" None;
                     Sagemaker.NewSession
                       (Sagemaker.credentials_profile_name values) None;
                     Sagemaker.SessionClient "sagemaker-runtime"
                       (Sagemaker.region_name values) None]
       | Raise e =>
           exists pre ev e0,
             evs = pre ++ [ev]
             /\ Forall (fun ev' => SagemakerRun.resolution_error ev' = None) pre
             /\ SagemakerRun.resolution_error ev = Some e0
             /\ e = SagemakerRun.construction_error ev e0
       end.
Proof.
  unfold Sagemaker.instantiate, Sagemaker.validate_environment.
  unfold try_except, bind, extern, ret, raise. cbn [world journal].
  destruct (Sagemaker.import_boto3 env (world s)) as [[boto3|e0] w1].
  - cbn [err_of world journal].
    destruct (Sagemaker.credentials_profile_name values) as [profile|];
      unfold extern; cbn [world journal].
    + destruct (Sagemaker.new_session boto3 (Some profile) w1)
        as [[session|e0] w2]; cbn [err_of world journal].
      * destruct (Sagemaker.session_client session "sagemaker-runtime"
                    (Sagemaker.region_name values) w2) as [[c|e0] w3];
          cbn [err_of fst snd journal].
        -- eexists. split; [by rewrite <- !app_assoc |]. split; [eauto | done].
        -- credentials_stage e0
             [Sagemaker.ImportModule "boto3" None;
              Sagemaker.NewSession (Some profile) None]
             (Sagemaker.SessionClient "sagemaker-runtime"
                (Sagemaker.region_name values) (Some e0)).
      * credentials_stage e0
          [Sagemaker.ImportModule "boto3" None]
          (Sagemaker.NewSession (Some profile) (Some e0)).
    + destruct (Sagemaker.new_session boto3 None w1)
        as [[session|e0] w2]; cbn [err_of world journal].
      * destruct (Sagemaker.session_client session "sagemaker-runtime"
                    (Sagemaker.region_name values) w2) as [[c|e0] w3];
          cbn [err_of fst snd journal].
        -- eexists. split; [by rewrite <- !app_assoc |]. split; [eauto | done].
        -- credentials_stage e0
             [Sagemaker.ImportModule "boto3" None;
              Sagemaker.NewSession None None]
             (Sagemaker.SessionClient "sagemaker-runtime"
                (Sagemaker.region_name values) (Some e0)).
      * credentials_stage e0
          [Sagemaker.ImportModule "boto3" None]
          (Sagemaker.NewSession None (Some e0)).
  - cbn [err_of fst snd journal].
    exists [Sagemaker.ImportModule "boto3" (Some e0)].
    destruct (is_ImportError e0) eqn:He; simpl; (split; [done |]);
      exists [], (Sagemaker.ImportModule "boto3" (Some e0)), e0;
      simpl; rewrite He; by repeat split.
Qed.

(** How the construction of the local-model embedder runs: the two
    imports and the load, in order, each made once and only when the ones
    before returned; an instance exists only when all three returned, and
    then its handle is the loaded model; otherwise [__init__] raises the
    [ValueError] of the [except ImportError] clause for an [ImportError],
    and the failure itself for anything else. *)
Lemma tensorflow_hub_init_run {W} (env : TensorflowHub.Env W)
    (kw : TensorflowHub.kwargs W) (s : state TensorflowHub.event W) :
  exists evs,
    journal (snd (TensorflowHub.__init__ env kw s)) = journal s ++ evs
    /\ match fst (TensorflowHub.__init__ env kw s) with
       | Ok inst =>
           (exists m, inst = TensorflowHub.set_embed
                               (TensorflowHub.super_init kw) m
                      /\ TensorflowHub.embed inst = Some m)
           /\ evs = [TensorflowHub.ImportModule "tensorflow_hub" None;
                     TensorflowHub.ImportModule "tensorflow_text" None;
                     TensorflowHub.LoadModel
                       (TensorflowHub.model_url (TensorflowHub.super_init kw))
                       None]
       | Raise e =>
           exists pre ev e0,
             evs = pre ++ [ev]
             /\ Forall (fun ev' => TensorflowHubRun.resolution_error ev' = None)
                  pre
             /\ TensorflowHubRun.resolution_error ev = Some e0
             /\ e = TensorflowHubRun.construction_error e0
       end.
Proof.
  unfold TensorflowHub.__init__, try_except, bind, extern, ret, raise.
  cbv zeta. cbn [world journal].
  destruct (TensorflowHub.import_tensorflow_hub env (world s))
    as [[hub|e0] w1]; cbn [err_of world journal].
  - destruct (TensorflowHub.import_tensorflow_text env w1)
      as [[[]|e0] w2]; cbn [err_of world journal].
    + destruct (TensorflowHub.load hub _ w2) as [[m|e0] w3];
        cbn [err_of fst snd journal].
      * eexists. split; [by rewrite <- !app_assoc |]. split; [eauto | done].
      * import_stage e0
          [TensorflowHub.ImportModule "tensorflow_hub" None;
           TensorflowHub.ImportModule "tensorflow_text" None]
          (TensorflowHub.LoadModel
             (TensorflowHub.model_url (TensorflowHub.super_init kw))
             (Some e0)).
    + import_stage e0
        [TensorflowHub.ImportModule "tensorflow_hub" None]
        (TensorflowHub.ImportModule "tensorflow_text" (Some e0)).
  - import_stage e0 (@nil TensorflowHub.event)
      (TensorflowHub.ImportModule "tensorflow_hub" (Some e0)).
Qed.

(** The calls of the endpoint embedder resolve nothing. *)
Lemma sagemaker_calls_resolve_nothing {W} (self : Sagemaker.t W) :
  (forall texts chunk_size s,
      exists evs,
        journal (snd (Sagemaker.embed_documents self texts chunk_size s))
        = journal s ++ evs
        /\ Forall (fun ev => SagemakerRun.is_resolution ev = false) evs)
  /\ (forall text s,
        exists evs,
          journal (snd (Sagemaker._embed_query self text s)) = journal s ++ evs
          /\ Forall (fun ev => SagemakerRun.is_resolution ev = false) evs).
Proof.
  split.
  - intros texts chunk_size s.
    destruct (Sagemaker.embed_documents self texts chunk_size s)
      as [o s'] eqn:Hrun.
    apply SagemakerFacts.embed_documents_run in Hrun. cbv zeta in Hrun.
    destruct Hrun as [(_ & -> & _) | (_ & evs & Hj & Hb)].
    + exists []. simpl. by rewrite app_nil_r.
    + exists evs. split; [done |].
      by eapply SagemakerFacts.batch_run_no_resolution.
  - intros text s. unfold Sagemaker._embed_query.
    destruct (Sagemaker._embedding_func self [text] s) as [o s'] eqn:Hrun.
    apply SagemakerFacts.embedding_func_run in Hrun as (evs & Hj & Hw).
    exists evs. split; [done |].
    by eapply SagemakerFacts.window_run_no_resolution.
Qed.

(** C9. Configuration is resolved once, at construction.  For the endpoint
    embedder the constructor imports [boto3], opens the session and asks it
    for the client, each once; for the local-model embedder [__init__]
    imports the two packages and loads the model, each once.  If one of
    these calls raises, no later one is made and the constructor raises, so
    no instance exists: the [ValueError] of the import or of the credentials
    for the endpoint embedder, the [ValueError] of the import for a missing
    package of the local-model embedder, and the failure of the load itself
    when it is not an [ImportError].  If the constructor returns, all three
    calls returned and the instance holds the client, or the model, they
    gave.  The embedding calls of either class make no resolving call. *)
Theorem configuration_resolved_once_at_construction :
  (forall (W : Type) (env : Sagemaker.Env W) (values : Sagemaker.t W)
          (s : state Sagemaker.event W),
      exists evs,
        journal (snd (Sagemaker.instantiate env values s)) = journal s ++ evs
        /\ match fst (Sagemaker.instantiate env values s) with
           | Ok inst =>
               (exists c, inst = Sagemaker.set_client values c
                          /\ Sagemaker.client inst = Some c)
               /\ evs = [Sagemaker.ImportModule "boto3" None;
                         Sagemaker.NewSession
                           (Sagemaker.credentials_profile_name values) None;
                         Sagemaker.SessionClient "sagemaker-runtime"
                           (Sagemaker.region_name values) None]
           | Raise e =>
               exists pre ev e0,
                 evs = pre ++ [ev]
                 /\ Forall (fun ev' =>
                              SagemakerRun.resolution_error ev' = None) pre
                 /\ SagemakerRun.resolution_error ev = Some e0
                 /\ e = SagemakerRun.construction_error ev e0
           end)
  /\ (forall (W : Type) (env : TensorflowHub.Env W)
             (kw : TensorflowHub.kwargs W) (s : state TensorflowHub.event W),
        exists evs,
          journal (snd (TensorflowHub.__init__ env kw s)) = journal s ++ evs
          /\ match fst (TensorflowHub.__init__ env kw s) with
             | Ok inst =>
                 (exists m, inst = TensorflowHub.set_embed
                                     (TensorflowHub.super_init kw) m
                            /\ TensorflowHub.embed inst = Some m)
                 /\ evs = [TensorflowHub.ImportModule "tensorflow_hub" None;
                           TensorflowHub.ImportModule "tensorflow_text" None;
                           TensorflowHub.LoadModel
                             (TensorflowHub.model_url
                                (TensorflowHub.super_init kw)) None]
             | Raise e =>
                 exists pre ev e0,
                   evs = pre ++ [ev]
                   /\ Forall (fun ev' =>
                                TensorflowHubRun.resolution_error ev' = None)
                        pre
                   /\ TensorflowHubRun.resolution_error ev = Some e0
                   /\ e = TensorflowHubRun.construction_error e0
             end)
  /\ (forall (W : Type) (self : Sagemaker.t W) (texts : list string)
             (chunk_size : Z) (text : string) (s : state Sagemaker.event W),
        (exists evs,
            journal (snd (Sagemaker.embed_documents self texts chunk_size s))
            = journal s ++ evs
            /\ Forall (fun ev => SagemakerRun.is_resolution ev = false) evs)
        /\ (exists evs,
              journal (snd (Sagemaker._embed_query self text s))
              = journal s ++ evs
              /\ Forall (fun ev => SagemakerRun.is_resolution ev = false) evs))
  /\ (forall (W : Type) (self : TensorflowHub.t W) (texts : list string)
             (text : string) (s : state TensorflowHub.event W),
        (exists evs,
            journal (snd (TensorflowHub.embed_documents self texts s))
            = journal s ++ evs
            /\ Forall (fun ev => TensorflowHubRun.is_resolution ev = false) evs)
        /\ (exists evs,
              journal (snd (TensorflowHub._embed_query self text s))
              = journal s ++ evs
              /\ Forall (fun ev => TensorflowHubRun.is_resolution ev = false)
                   evs)).
Proof.
  split; [| split; [| split]].
  - intros W env values s. apply sagemaker_construct_run.
  - intros W env kw s. apply tensorflow_hub_init_run.
  - intros W self texts chunk_size text s.
    destruct (sagemaker_calls_resolve_nothing self) as [Hd Hq]. eauto.
  - intros W self texts text s. split.
    + destruct (TensorflowHubFacts.model_embed_documents_args self texts s)
        as (evs & Hj & Hr & _). eauto.
    + destruct (TensorflowHubFacts.model_embed_query_args self text s)
        as (evs & Hj & Hr & _). eauto.
Qed.

Example construction_resolves :
  let run := Sagemaker.instantiate good_env (embedder good_client) start in
  is_Ok (fst run) = true
  /\ journal (snd run)
     = [Sagemaker.ImportModule "boto3" None;
        Sagemaker.NewSession (Some "default") None;
        Sagemaker.SessionClient "sagemaker-runtime" "us-west-2" None].
Proof. split; reflexivity. Qed.

Example construction_without_boto3 :
  fst (Sagemaker.instantiate no_boto3_env (embedder good_client) start)
  = Raise Sagemaker.import_error.
Proof. reflexivity. Qed.

Example construction_without_profile :
  fst (Sagemaker.instantiate no_profile_env (embedder good_client) start)
  = Raise Sagemaker.credentials_error.
Proof. reflexivity. Qed.

Example model_construction_loads :
  let run := TensorflowHub.__init__ tf_env tf_no_kwargs start in
  is_Ok (fst run) = true
  /\ journal (snd run)
     = [TensorflowHub.ImportModule "tensorflow_hub" None;
        TensorflowHub.ImportModule "tensorflow_text" None;
        TensorflowHub.LoadModel TensorflowHub.DEFAULT_MODEL_URL None].
Proof. split; reflexivity. Qed.

(** A load that fails with something other than an [ImportError] reaches
    the caller as it is. *)
Example model_construction_offline :
  fst (TensorflowHub.__init__ tf_offline_env tf_no_kwargs start)
  = Raise (Exn (OtherError "OSError") "URL fetch failure").
Proof. reflexivity. Qed.

End Construction.

(** ** [SagemakerEndpointEmbeddings]: further behaviour of the calls *)

Module SagemakerBehaviour.
Import Py Sagemaker SagemakerRun SagemakerFacts ChunkPlan Doubles.

Section Helpers.
Context {W : Type}.
Implicit Types (self : Sagemaker.t W) (s : state event W).

(** A window that returns: the three calls it made, and where its result
    comes from. *)
Lemma window_run_decoded self w evs r :
  window_run self w evs (Ok r) ->
  exists body response b,
    encode self w = Ok body
    /\ getitem response "Body" = Ok b
    /\ transform_output (content_handler self) b = Ok r
    /\ evs = [encode_event self w;
              InvokeEndpoint (request_of self body) (Ok response);
              TransformOutput b (Ok r)].
Proof.
  inversion 1 as [| | | | body response b Henc Hb Hevs Hout].
  by exists body, response, b.
Qed.

(** A window is sent to the endpoint at most once, as its encoding. *)
Lemma window_run_sent self w evs o :
  window_run self w evs o ->
  invocations evs = []
  \/ exists body res,
       encode self w = Ok body /\ invocations evs = [(request_of self body, res)].
Proof. destruct 1; simpl; eauto. Qed.

(** If a kind of journalled call, picked out by [fatal], ends every window
    it occurs in, it ends the loop too. *)
Lemma batch_run_fatal self (fatal : event -> option exn) :
  (forall w evs o ev e,
      window_run self w evs o -> ev ∈ evs -> fatal ev = Some e ->
      o = Raise e /\ exists pre, evs = pre ++ [ev]) ->
  forall ws acc evs o ev e,
    batch_run self ws acc evs o -> ev ∈ evs -> fatal ev = Some e ->
    o = Raise e /\ exists pre, evs = pre ++ [ev].
Proof.
  intros Hwin ws acc evs o ev e Hb. revert ev e.
  induction Hb as [| w ws acc evs r evs' o Hw _ IH | w ws acc evs e' Hw];
    intros ev e Hin Hf.
  - by apply elem_of_nil in Hin.
  - apply elem_of_app in Hin as [Hin | Hin].
    + by destruct (Hwin _ _ _ _ _ Hw Hin Hf) as [? _].
    + destruct (IH _ _ Hin Hf) as (-> & pre & ->). split; [done |].
      exists (evs ++ pre). by rewrite app_assoc.
  - destruct (Hwin _ _ _ _ _ Hw Hin Hf) as ([= ->] & Hlast). done.
Qed.

(** The journal of a call of [embed_documents] is empty, or that of a run
    of the loop. *)
Lemma embed_documents_batch self texts chunk_size s o s' evs :
  embed_documents self texts chunk_size s = (o, s') ->
  journal s' = journal s ++ evs ->
  evs = [] \/ exists ws, batch_run self ws [] evs o.
Proof.
  intros Hrun Hj. apply embed_documents_run in Hrun. cbv zeta in Hrun.
  destruct Hrun as [(_ & -> & _) | (_ & evs' & Hj' & Hb)].
  - left. apply (app_inv_head (journal s)). by rewrite app_nil_r.
  - right. assert (evs' = evs) as ->; [| by eexists].
    apply (app_inv_head (journal s)). congruence.
Qed.

(** The four ways a collaborator's failure reaches the caller of
    [_embedding_func] unwrapped. *)
Ltac fatal_in_window :=
  let Hin := fresh "Hin" in
  let Hf := fresh "Hf" in
  destruct 1 as [? Henc | ? ? Henc | ? ? Henc | ? ? ? Henc Hb | ? ? ? Henc Hb];
  intros Hin Hf;
  repeat (apply elem_of_cons in Hin as [-> | Hin]);
  try (by apply elem_of_nil in Hin);
  unfold encode_event in Hf; rewrite ?Henc in Hf; simpl in Hf;
  rewrite ?Hb in Hf; simpl in Hf;
  simplify_eq;
  (split; [done |]);
  first [by exists [] | by eexists [_] | by eexists [_; _]].

Lemma window_run_encode_raise self w evs o ev e :
  window_run self w evs o -> ev ∈ evs ->
  match ev with TransformInput _ _ (Raise e) => Some e | _ => None end = Some e ->
  o = Raise e /\ exists pre, evs = pre ++ [ev].
Proof. fatal_in_window. Qed.

Lemma window_run_no_body self w evs o ev e :
  window_run self w evs o -> ev ∈ evs ->
  match ev with
  | InvokeEndpoint _ (Ok response) => err_of (getitem response "Body")
  | _ => None
  end = Some e ->
  o = Raise e /\ exists pre, evs = pre ++ [ev].
Proof. fatal_in_window. Qed.

Lemma window_run_decode_raise self w evs o ev e :
  window_run self w evs o -> ev ∈ evs ->
  match ev with TransformOutput _ (Raise e) => Some e | _ => None end = Some e ->
  o = Raise e /\ exists pre, evs = pre ++ [ev].
Proof.
  destruct 1 as [? Henc | ? ? Henc | ? ? Henc | ? ? ? Henc Hb | ? ? b Henc Hb];
    intros Hin Hf;
    repeat (apply elem_of_cons in Hin as [-> | Hin]);
    try (by apply elem_of_nil in Hin);
    try discriminate Hf.
  destruct (transform_output (content_handler self) b) as [r|e'];
    [discriminate Hf |].
  injection Hf as <-. split; [done |]. by eexists [_; _].
Qed.

End Helpers.

Lemma getitem_missing (d : pydict) (k : string) :
  k ∉ (fst <$> d) -> getitem d k = Raise (Exn KeyError ("'" +:+ k +:+ "'")).
Proof.
  intros Hk. unfold getitem.
  destruct (list_find _ d) as [[i [k' v]]|] eqn:Hfind; [| done].
  apply list_find_Some in Hfind as (Hi & Heq & _). simpl in Heq.
  apply Is_true_true, String.eqb_eq in Heq. subst k'.
  destruct Hk. apply list_elem_of_fmap. exists (k, v). split; [done |].
  by eapply list_elem_of_lookup_2.
Qed.

(** X1. A call of [embed_documents] on a
    non-empty batch with a chunk size of at least one that returns, returns
    as many entries as there are windows: the number of texts divided by
    the effective chunk size, rounded up. *)
Theorem embed_documents_one_entry_per_window :
  forall (W : Type) (self : Sagemaker.t W) (texts : list string)
         (chunk_size : Z) (s s' : state event W) (rs : list pyobj),
    texts <> [] ->
    1 <= chunk_size ->
    embed_documents self texts chunk_size s = (Ok rs, s') ->
    length rs
    = window_count (length texts) (effective chunk_size (length texts)).
Proof.
  intros W self texts chunk_size s s' rs Hne Hcs Hrun.
  destruct (SagemakerResults.embed_documents_plan _ _ _ _ _ _ Hne Hcs Hrun)
    as (_ & evs & _ & Hb).
  apply batch_run_ok in Hb as [(rs' & -> & Hlen) _].
  simpl. by rewrite Hlen, ChunkPlanFacts.length_windows.
Qed.

Lemma embed_documents_one_entry_per_window_witness :
  let run := embed_documents (embedder good_client)
               ["a"; "b"; "c"; "d"; "e"] 2 start in
  exists rs, fst run = Ok rs /\ length rs = 3%nat.
Proof.
  intros run.
  eassert (Hrun : run = (Ok _, _)) by (vm_compute; reflexivity).
  eexists. split; [by rewrite Hrun |].
  exact (embed_documents_one_entry_per_window nat (embedder good_client)
           ["a"; "b"; "c"; "d"; "e"] 2 start _ _
           ltac:(discriminate) ltac:(lia) Hrun).
Defined.

(** X5. An exception of the content handler's [transform_input] reaches the
    caller of [embed_documents] as it is, not wrapped, and ends the call:
    the failed encoding is the last call journalled, so the window is not
    sent and no later window is encoded. *)
Theorem embed_documents_encode_error_unwrapped :
  forall (W : Type) (self : Sagemaker.t W) (texts : list string)
         (chunk_size : Z) (s s' : state event W) (o : outcome (list pyobj))
         (evs : list event) (batch : list string) (kw : pydict) (e : exn),
    embed_documents self texts chunk_size s = (o, s') ->
    journal s' = journal s ++ evs ->
    TransformInput batch kw (Raise e) ∈ evs ->
    o = Raise e
    /\ exists pre, evs = pre ++ [TransformInput batch kw (Raise e)].
Proof.
  intros W self texts chunk_size s s' o evs batch kw e Hrun Hj Hin.
  destruct (embed_documents_batch _ _ _ _ _ _ _ Hrun Hj) as [-> | [ws Hb]].
  - by apply elem_of_nil in Hin.
  - by apply (batch_run_fatal self _ (window_run_encode_raise self)
                _ _ _ _ _ _ Hb Hin).
Qed.

Lemma embed_documents_encode_error_unwrapped_witness :
  let run := embed_documents (embedder_of picky_handler good_client None)
               ["a"; "b"; "c"; "d"; "e"] 2 start in
  fst run = Raise cannot_encode
  /\ length (invocations (journal (snd run))) = 1%nat.
Proof.
  intros run. split; [| reflexivity].
  refine (proj1 (embed_documents_encode_error_unwrapped
                   nat (embedder_of picky_handler good_client None)
                   ["a"; "b"; "c"; "d"; "e"] 2 start (snd run) (fst run)
                   (journal (snd run)) ["c"; "d"] [] cannot_encode _ _ _)).
  - reflexivity.
  - reflexivity.
  - vm_compute. do 3 apply list_elem_of_further. apply list_elem_of_here.
Defined.

(** X6. An answer of the endpoint without the key ["Body"] makes
    [embed_documents] raise the [KeyError] of the lookup, not wrapped; the
    invocation is the last call journalled, so the output transform is not
    called and no later window is encoded or sent. *)
Theorem embed_documents_answer_without_body :
  forall (W : Type) (self : Sagemaker.t W) (texts : list string)
         (chunk_size : Z) (s s' : state event W) (o : outcome (list pyobj))
         (evs : list event) (req : request) (response : pydict),
    embed_documents self texts chunk_size s = (o, s') ->
    journal s' = journal s ++ evs ->
    InvokeEndpoint req (Ok response) ∈ evs ->
    "Body" ∉ (fst <$> response) ->
    o = Raise (Exn KeyError "'Body'")
    /\ exists pre, evs = pre ++ [InvokeEndpoint req (Ok response)].
Proof.
  intros W self texts chunk_size s s' o evs req response Hrun Hj Hin Hno.
  destruct (embed_documents_batch _ _ _ _ _ _ _ Hrun Hj) as [-> | [ws Hb]].
  - by apply elem_of_nil in Hin.
  - apply (batch_run_fatal self _ (window_run_no_body self)
             _ _ _ _ _ _ Hb Hin).
    simpl. by rewrite (getitem_missing _ _ Hno).
Qed.

Lemma embed_documents_answer_without_body_witness :
  let run := embed_documents (embedder_of joining_handler bodyless_client None)
               ["a"; "b"; "c"] 2 start in
  fst run = Raise (Exn KeyError "'Body'")
  /\ length (invocations (journal (snd run))) = 1%nat.
Proof.
  intros run. split; [| reflexivity].
  refine (proj1 (embed_documents_answer_without_body
                   nat (embedder_of joining_handler bodyless_client None)
                   ["a"; "b"; "c"] 2 start (snd run) (fst run)
                   (journal (snd run))
                   (request_of
                      (embedder_of joining_handler bodyless_client None) "ab")
                   [("ResponseMetadata", PNone)] _ _ _ _)).
  - reflexivity.
  - reflexivity.
  - vm_compute. apply list_elem_of_further, list_elem_of_here.
  - intros Hin. apply list_elem_of_fmap in Hin as [[k v] [Hk Hin]].
    apply list_elem_of_singleton in Hin. by simplify_eq.
Defined.

(** X7. An exception of the content handler's [transform_output] reaches the
    caller of [embed_documents] as it is, not wrapped, and ends the call:
    the failed decoding is the last call journalled, although its window
    was sent and answered. *)
Theorem embed_documents_decode_error_unwrapped :
  forall (W : Type) (self : Sagemaker.t W) (texts : list string)
         (chunk_size : Z) (s s' : state event W) (o : outcome (list pyobj))
         (evs : list event) (b : pyobj) (e : exn),
    embed_documents self texts chunk_size s = (o, s') ->
    journal s' = journal s ++ evs ->
    TransformOutput b (Raise e) ∈ evs ->
    o = Raise e /\ exists pre, evs = pre ++ [TransformOutput b (Raise e)].
Proof.
  intros W self texts chunk_size s s' o evs b e Hrun Hj Hin.
  destruct (embed_documents_batch _ _ _ _ _ _ _ Hrun Hj) as [-> | [ws Hb]].
  - by apply elem_of_nil in Hin.
  - by apply (batch_run_fatal self _ (window_run_decode_raise self)
                _ _ _ _ _ _ Hb Hin).
Qed.

Lemma embed_documents_decode_error_unwrapped_witness :
  let run := embed_documents (embedder_of deaf_handler good_client None)
               ["a"; "b"; "c"] 2 start in
  fst run = Raise cannot_decode
  /\ length (invocations (journal (snd run))) = 1%nat.
Proof.
  intros run. split; [| reflexivity].
  refine (proj1 (embed_documents_decode_error_unwrapped
                   nat (embedder_of deaf_handler good_client None)
                   ["a"; "b"; "c"] 2 start (snd run) (fst run)
                   (journal (snd run)) (vector_per_char "ab") cannot_decode
                   _ _ _)).
  - reflexivity.
  - reflexivity.
  - vm_compute. do 2 apply list_elem_of_further. apply list_elem_of_here.
Defined.

(** X8. An invocation ended by an exception outside [Exception], such as an
    interrupt from the keyboard, is not wrapped by the [except Exception]
    clause: [embed_documents] raises that very exception, and the
    invocation is the last call journalled. *)
Theorem embed_documents_interrupt_unwrapped :
  forall (W : Type) (self : Sagemaker.t W) (texts : list string)
         (chunk_size : Z) (s s' : state event W) (o : outcome (list pyobj))
         (evs : list event) (req : request) (e : exn),
    embed_documents self texts chunk_size s = (o, s') ->
    journal s' = journal s ++ evs ->
    (req, Raise e) ∈ invocations evs ->
    is_Exception e = false ->
    o = Raise e /\ exists pre, evs = pre ++ [InvokeEndpoint req (Raise e)].
Proof.
  intros W self texts chunk_size s s' o evs req e Hrun Hj Hin He.
  destruct (embed_documents_batch _ _ _ _ _ _ _ Hrun Hj) as [-> | [ws Hb]].
  - by apply elem_of_nil in Hin.
  - destruct (batch_run_raise _ _ _ _ _ _ _ Hb Hin) as (-> & pre & -> & _).
    split; [| by exists pre]. unfold surfaced. by rewrite He.
Qed.

Lemma embed_documents_interrupt_unwrapped_witness :
  let run := embed_documents (embedder interrupted_client)
               ["a"; "b"; "c"; "d"; "e"] 2 start in
  is_Exception interrupt = false
  /\ fst run = Raise interrupt
  /\ length (invocations (journal (snd run))) = 2%nat.
Proof.
  intros run. split; [reflexivity |]. split; [| reflexivity].
  refine (proj1 (embed_documents_interrupt_unwrapped
                   nat (embedder interrupted_client)
                   ["a"; "b"; "c"; "d"; "e"] 2 start (snd run) (fst run)
                   (journal (snd run))
                   (request_of (embedder interrupted_client) "cd") interrupt
                   _ _ _ _)).
  - reflexivity.
  - reflexivity.
  - vm_compute. apply list_elem_of_further, list_elem_of_here.
  - reflexivity.
Defined.

(** *** Order of the results, and what every run sends *)

Section Order.
Context {W : Type}.
Implicit Types (self : Sagemaker.t W) (s : state event W).

(** In a loop that returns, the result gathered at position [j] is what
    the output transform made of the endpoint's answer to window [j]. *)
Lemma batch_run_in_order self ws acc evs rs :
  batch_run self ws acc evs (Ok rs) ->
  exists rs',
    rs = acc ++ rs'
    /\ forall j w,
         ws !! j = Some w ->
         exists body response b r,
           encode self w = Ok body
           /\ invocations evs !! j = Some (request_of self body, Ok response)
           /\ getitem response "Body" = Ok b
           /\ transform_output (content_handler self) b = Ok r
           /\ rs' !! j = Some r.
Proof.
  remember (Ok rs) as o eqn:Ho.
  induction 1 as [| w ws acc evs r evs' o Hw _ IH | w ws acc evs e Hw].
  - injection Ho as ->. exists []. rewrite app_nil_r. split; [done |].
    intros j w Hj. by rewrite lookup_nil in Hj.
  - destruct (IH Ho) as (rs' & -> & Hall).
    exists (r :: rs'). rewrite <- app_assoc. split; [done |].
    destruct (window_run_decoded _ _ _ _ Hw)
      as (body & response & b & Henc & Hb & Hout & ->).
    intros [|j] w' Hj; simpl in Hj.
    + injection Hj as <-. by exists body, response, b, r.
    + destruct (Hall _ _ Hj) as (body' & response' & b' & r' & H').
      by exists body', response', b', r'.
  - discriminate Ho.
Qed.

(** On every run of the loop, returning or not, the invocations made are
    those of a first part of the windows, one each, in order. *)
Lemma batch_run_sent self ws acc evs o :
  batch_run self ws acc evs o ->
  exists sent,
    sent `prefix_of` ws
    /\ Forall2 (fun w inv => exists body,
                  encode self w = Ok body /\ fst inv = request_of self body)
         sent (invocations evs).
Proof.
  induction 1 as [| w ws acc evs r evs' o Hw _ IH | w ws acc evs e Hw].
  - exists []. split; [done | constructor].
  - destruct IH as (sent & Hpre & Hall).
    destruct (window_run_ok _ _ _ _ Hw) as (body & response & Henc & Hinv).
    exists (w :: sent). split; [by apply prefix_cons |].
    rewrite invocations_app, Hinv. constructor; eauto.
  - destruct (window_run_sent _ _ _ _ Hw) as [-> | (body & res & Henc & ->)].
    + exists []. split; [apply prefix_nil | constructor].
    + exists [w]. split; [by exists ws |]. repeat constructor. eauto.
Qed.

End Order.

(** X2. When [embed_documents] returns, on a non-empty batch with a chunk size
    of at least one, the entry at position j of its result is what the
    output transform made of the body of the endpoint's answer to window j
    of the chunk plan, and that answer is the j-th invocation journalled:
    results keep the order of the windows. *)
Theorem embed_documents_results_in_window_order :
  forall (W : Type) (self : Sagemaker.t W) (texts : list string)
         (chunk_size : Z) (s s' : state event W) (rs : list pyobj)
         (evs : list event),
    texts <> [] ->
    1 <= chunk_size ->
    embed_documents self texts chunk_size s = (Ok rs, s') ->
    journal s' = journal s ++ evs ->
    forall (j : nat) (w : list string),
      windows (effective chunk_size (length texts)) texts !! j = Some w ->
      exists body response b r,
        encode self w = Ok body
        /\ invocations evs !! j = Some (request_of self body, Ok response)
        /\ getitem response "Body" = Ok b
        /\ transform_output (content_handler self) b = Ok r
        /\ rs !! j = Some r.
Proof.
  intros W self texts chunk_size s s' rs evs Hne Hcs Hrun Hj j w Hw.
  destruct (SagemakerResults.embed_documents_plan _ _ _ _ _ _ Hne Hcs Hrun)
    as (_ & evs' & Hj' & Hb).
  assert (evs' = evs) as ->.
  { apply (app_inv_head (journal s)). congruence. }
  destruct (batch_run_in_order _ _ _ _ _ Hb) as (rs' & -> & Hall).
  by apply Hall.
Qed.

Lemma embed_documents_results_in_window_order_witness :
  let self := embedder good_client in
  let run := embed_documents self ["a"; "b"; "c"; "d"; "e"] 2 start in
  let rs := [vector_per_char "ab"; vector_per_char "cd"; vector_per_char "e"] in
  fst run = Ok rs
  /\ exists body response b r,
       encode self ["e"] = Ok body
       /\ invocations (journal (snd run)) !! 2%nat
          = Some (request_of self body, Ok response)
       /\ getitem response "Body" = Ok b
       /\ transform_output (content_handler self) b = Ok r
       /\ rs !! 2%nat = Some r.
Proof.
  intros self run rs. split; [reflexivity |].
  exact (embed_documents_results_in_window_order
           nat self ["a"; "b"; "c"; "d"; "e"] 2 start (snd run) rs
           (journal (snd run))
           ltac:(discriminate) ltac:(lia) eq_refl eq_refl 2%nat ["e"] eq_refl).
Defined.

(** X3. On every call of [embed_documents] with a chunk size of at least one,
    whether it returns or raises, each batch handed to the content handler
    holds at least one text and at most [chunk_size] texts. *)
Theorem embed_documents_batches_bounded :
  forall (W : Type) (self : Sagemaker.t W) (texts : list string)
         (chunk_size : Z) (s s' : state event W) (o : outcome (list pyobj))
         (evs : list event),
    1 <= chunk_size ->
    embed_documents self texts chunk_size s = (o, s') ->
    journal s' = journal s ++ evs ->
    Forall (fun batch : list string =>
              (1 <= length batch)%nat /\ Z.of_nat (length batch) <= chunk_size)
      (encoded_batches evs).
Proof.
  intros W self texts chunk_size s s' o evs Hcs Hrun Hj.
  destruct texts as [|t texts].
  - rewrite SagemakerResults.embed_documents_empty_batch in Hrun by lia.
    injection Hrun as _ <-.
    assert (evs = []) as ->; [| constructor].
    apply (app_inv_head (journal s)). by rewrite app_nil_r.
  - destruct (SagemakerResults.embed_documents_plan
                self (t :: texts) chunk_size s o s' ltac:(done) Hcs Hrun)
      as (Hk & evs' & Hj' & Hb).
    assert (evs' = evs) as ->.
    { apply (app_inv_head (journal s)). congruence. }
    destruct (batch_run_encoded _ _ _ _ _ Hb) as (reached & Hpre & -> & _).
    apply Forall_fmap, Forall_forall. intros w Hw. simpl.
    rewrite length_fmap.
    destruct Hpre as [rest Hws].
    assert (Hin : w ∈ windows (effective chunk_size (length (t :: texts)))
                        (t :: texts)).
    { rewrite Hws. apply elem_of_app. by left. }
    apply list_elem_of_lookup in Hin as [j Hjw].
    destruct (ChunkPlanFacts.length_window _ _ _ _ Hk Hjw) as [Hlen _].
    unfold effective in Hlen. lia.
Qed.

Lemma embed_documents_batches_bounded_witness :
  let run := embed_documents (embedder flaky_client)
               ["a"; "b"; "c"; "d"; "e"] 2 start in
  length <$> encoded_batches (journal (snd run)) = [2; 2]%nat
  /\ Forall (fun batch : list string =>
               (1 <= length batch)%nat /\ Z.of_nat (length batch) <= 2)
       (encoded_batches (journal (snd run))).
Proof.
  intros run. split; [reflexivity |].
  exact (embed_documents_batches_bounded nat (embedder flaky_client)
           ["a"; "b"; "c"; "d"; "e"] 2 start (snd run) (fst run)
           (journal (snd run)) ltac:(lia) eq_refl eq_refl).
Defined.

(** X4. On every call of [embed_documents] on a non-empty batch with a chunk
    size of at least one, whether it returns or raises, the invocations
    made are those of a first part of the windows of the chunk plan: each
    of these windows is sent once, as the handler's encoding of it, in
    order, and no other request is made. *)
Theorem embed_documents_sends_leading_windows :
  forall (W : Type) (self : Sagemaker.t W) (texts : list string)
         (chunk_size : Z) (s s' : state event W) (o : outcome (list pyobj))
         (evs : list event),
    texts <> [] ->
    1 <= chunk_size ->
    embed_documents self texts chunk_size s = (o, s') ->
    journal s' = journal s ++ evs ->
    exists sent,
      sent `prefix_of` windows (effective chunk_size (length texts)) texts
      /\ Forall2 (fun w inv => exists body,
                    encode self w = Ok body
                    /\ fst inv = request_of self body)
           sent (invocations evs).
Proof.
  intros W self texts chunk_size s s' o evs Hne Hcs Hrun Hj.
  destruct (SagemakerResults.embed_documents_plan _ _ _ _ _ _ Hne Hcs Hrun)
    as (_ & evs' & Hj' & Hb).
  assert (evs' = evs) as ->.
  { apply (app_inv_head (journal s)). congruence. }
  by apply batch_run_sent in Hb.
Qed.

Lemma embed_documents_sends_leading_windows_witness :
  let self := embedder flaky_client in
  let run := embed_documents self ["a"; "b"; "c"; "d"; "e"] 2 start in
  exists sent,
    sent `prefix_of` [["a"; "b"]; ["c"; "d"]; ["e"]]
    /\ length sent = length (invocations (journal (snd run)))
    /\ length (invocations (journal (snd run))) = 2%nat.
Proof.
  intros self run.
  destruct (embed_documents_sends_leading_windows
              nat self ["a"; "b"; "c"; "d"; "e"] 2 start (snd run) (fst run)
              (journal (snd run))
              ltac:(discriminate) ltac:(lia) eq_refl eq_refl)
    as (sent & Hpre & Hall).
  exists sent. split; [exact Hpre |].
  split; [exact (Forall2_length _ _ _ Hall) | reflexivity].
Defined.

(** *** Keywords given twice, and how the calls compose *)

Section Compose.
Context {W : Type}.
Implicit Types (self : Sagemaker.t W) (s : state event W).

(** When [endpoint_kwargs] holds one of the keywords that
    [_embedding_func] passes by name, the call of [invoke_endpoint] is a
    [TypeError] before the client runs: the window raises, and no
    invocation is made. *)
Lemma embedding_func_keyword_twice self k v w s o s' :
  k ∈ named_keywords ->
  (k, v) ∈ or_empty (endpoint_kwargs self) ->
  _embedding_func self w s = (o, s') ->
  is_Ok o = false
  /\ exists evs, journal s' = journal s ++ evs /\ invocations evs = [].
Proof.
  intros Hk Hin.
  unfold _embedding_func, bind, extern, try_except, call_invoke_endpoint,
    lift, raise.
  cbn [world journal].
  destruct (transform_input _ _ _) as [body|e].
  - destruct (client self) as [cl|].
    + destruct (list_find _ _) as [[? [k' ?]]|] eqn:Hfind.
      * cbn. intros [= <- <-]. split; [done |]. by eexists [_].
      * apply list_find_None in Hfind. cbn [Extra] in Hfind.
        rewrite Forall_forall in Hfind. destruct (Hfind _ Hin).
        simpl. by apply bool_decide_pack.
    + cbn. intros [= <- <-]. split; [done |]. by eexists [_].
  - intros [= <- <-]. split; [done |]. by eexists [_].
Qed.

Lemma for_each_keyword_twice self k v (texts : list string) (step : Z)
    idxs acc s o s' :
  k ∈ named_keywords ->
  (k, v) ∈ or_empty (endpoint_kwargs self) ->
  for_each idxs acc
    (fun i results =>
       response <- _embedding_func self (slice texts i (i + step)) ;;
       ret (results ++ [response])) s = (o, s') ->
  (forall rs, o = Ok rs -> rs = acc)
  /\ exists evs, journal s' = journal s ++ evs /\ invocations evs = [].
Proof.
  intros Hk Hin. destruct idxs as [|i idxs]; simpl.
  - intros [= <- <-]. split; [by intros rs [= <-] |].
    exists []. by rewrite app_nil_r.
  - unfold bind at 1. unfold bind at 1.
    destruct (_embedding_func self (slice texts i (i + step)) s)
      as [[r|e] s1] eqn:Hw;
      destruct (embedding_func_keyword_twice _ _ _ _ _ _ _ Hk Hin Hw)
        as (Hok & evs & Hj & Hinv); [discriminate Hok |].
    intros [= <- <-]. split; [done | eauto].
Qed.

(** [_embedding_func] sees of its batch only the normalised texts. *)
Lemma embedding_func_normalised self (w w' : list string) :
  replace_newlines <$> w = replace_newlines <$> w' ->
  _embedding_func self w = _embedding_func self w'.
Proof. intros Heq. unfold _embedding_func. by rewrite Heq. Qed.

Lemma slice_fmap {A B} (f : A -> B) (l : list A) (i j : Z) :
  slice (f <$> l) i j = f <$> slice l i j.
Proof. unfold slice. by rewrite length_fmap, fmap_take, fmap_drop. Qed.

Lemma for_each_ext {X A} (body body' : X -> A -> M event W A) xs acc s :
  (forall x a s0, body x a s0 = body' x a s0) ->
  for_each xs acc body s = for_each xs acc body' s.
Proof.
  intros Hext. revert acc s. induction xs as [|x xs IH]; intros acc s; simpl.
  - done.
  - unfold bind. rewrite Hext.
    destruct (body' x acc s) as [[a|e] s1]; [apply IH | done].
Qed.

Lemma for_each_fmap {X Y A} (g : X -> Y) (body : Y -> A -> M event W A)
    xs acc s :
  for_each (g <$> xs) acc body s = for_each xs acc (fun x => body (g x)) s.
Proof.
  revert acc s. induction xs as [|x xs IH]; intros acc s; simpl; [done |].
  unfold bind. destruct (body (g x) acc s) as [[a|e] s1]; [apply IH | done].
Qed.

(** The windows of size one are the texts, each on its own. *)
Lemma windows_of_one {A} (l : list A) : windows 1 l = (fun t => [t]) <$> l.
Proof.
  apply list_eq. intros j. rewrite list_lookup_fmap.
  destruct (decide (j < length l)%nat) as [Hj | Hj].
  - rewrite ChunkPlanFacts.lookup_windows.
    + destruct (lookup_lt_is_Some_2 l j Hj) as [x Hx]. rewrite Hx. simpl.
      replace (j * 1)%nat with j by lia. by rewrite (drop_S _ _ _ Hx).
    + unfold window_count. replace (length l + 1 - 1)%nat with (length l) by lia.
      by rewrite Nat.div_1_r.
  - rewrite (lookup_ge_None_2 l) by lia. simpl.
    apply lookup_ge_None_2. rewrite ChunkPlanFacts.length_windows.
    unfold window_count. replace (length l + 1 - 1)%nat with (length l) by lia.
    rewrite Nat.div_1_r. lia.
Qed.

End Compose.

(** X9. When [endpoint_kwargs] holds one of the four keywords that
    [_embedding_func] passes to [invoke_endpoint] by name ([EndpointName],
    [Body], [ContentType], [Accept]), the endpoint is never invoked:
    [embed_documents] makes no invocation and returns no entry, and
    [_embed_query] makes no invocation and raises. *)
Theorem endpoint_kwargs_named_keyword_blocks_invocation :
  forall (W : Type) (self : Sagemaker.t W) (k : string) (v : pyobj)
         (texts : list string) (chunk_size : Z) (text : string)
         (s : state event W),
    k ∈ named_keywords ->
    (k, v) ∈ or_empty (endpoint_kwargs self) ->
    ((forall rs, fst (embed_documents self texts chunk_size s) = Ok rs ->
                 rs = [])
     /\ exists evs,
          journal (snd (embed_documents self texts chunk_size s))
          = journal s ++ evs
          /\ invocations evs = [])
    /\ (is_Ok (fst (_embed_query self text s)) = false
        /\ exists evs,
             journal (snd (_embed_query self text s)) = journal s ++ evs
             /\ invocations evs = []).
Proof.
  intros W self k v texts chunk_size text s Hk Hin. split.
  - destruct (embed_documents self texts chunk_size s) as [o s'] eqn:Hrun.
    unfold embed_documents in Hrun. cbv zeta in Hrun.
    unfold bind at 1, lift in Hrun.
    destruct (range3 _ _ _) as [r|e].
    + by apply (for_each_keyword_twice _ _ _ _ _ _ _ _ _ _ Hk Hin) in Hrun.
    + injection Hrun as <- <-. simpl. split; [done |].
      exists []. by rewrite app_nil_r.
  - unfold _embed_query.
    destruct (_embedding_func self [text] s) as [o s'] eqn:Hrun.
    by apply (embedding_func_keyword_twice _ _ _ _ _ _ _ Hk Hin) in Hrun.
Qed.

Lemma endpoint_kwargs_named_keyword_blocks_invocation_witness :
  let self := embedder_of joining_handler good_client
                (Some [("Body", PStr "x")]) in
  invocations (journal (snd (embed_documents self ["a"; "b"] 1 start))) = []
  /\ is_Ok (fst (_embed_query self "a" start)) = false.
Proof.
  intros self.
  destruct (endpoint_kwargs_named_keyword_blocks_invocation
              nat self "Body" (PStr "x") ["a"; "b"] 1 "a" start)
    as [[_ (evs & Hj & Hinv)] [Hq _]].
  - unfold named_keywords. apply list_elem_of_further, list_elem_of_here.
  - apply list_elem_of_here.
  - split; [| exact Hq].
    change (journal start) with (@nil event) in Hj. simpl app in Hj.
    rewrite Hj. exact Hinv.
Defined.

(** X10. Two batches whose texts differ only in having a line feed where the
    other has a space are embedded alike: [embed_documents] makes the same
    calls and gives the same outcome on both. *)
Theorem embed_documents_line_feed_as_space :
  forall (W : Type) (self : Sagemaker.t W) (texts texts' : list string)
         (chunk_size : Z) (s : state event W),
    replace_newlines <$> texts = replace_newlines <$> texts' ->
    embed_documents self texts chunk_size s
    = embed_documents self texts' chunk_size s.
Proof.
  intros W self texts texts' chunk_size s Heq.
  assert (Hlen : length texts = length texts').
  { apply (f_equal length) in Heq. by rewrite !length_fmap in Heq. }
  unfold embed_documents. rewrite Hlen. cbv zeta. unfold bind at 1 3.
  destruct (lift _ s) as [[r|e] s1]; [| done].
  apply for_each_ext. intros i acc s0.
  rewrite (embedding_func_normalised self
             (slice texts i _) (slice texts' i
                (i + (if Z.of_nat (length texts') <? chunk_size
                      then Z.of_nat (length texts') else chunk_size))));
    [done |].
  by rewrite <- !slice_fmap, Heq.
Qed.

Lemma embed_documents_line_feed_as_space_witness :
  replace_newlines <$> ["a" +:+ String LF "b"; "c"]
  = replace_newlines <$> ["a b"; "c"]
  /\ embed_documents (embedder good_client)
       ["a" +:+ String LF "b"; "c"] 1 start
     = embed_documents (embedder good_client) ["a b"; "c"] 1 start.
Proof.
  split; [reflexivity |].
  exact (embed_documents_line_feed_as_space nat (embedder good_client)
           ["a" +:+ String LF "b"; "c"] ["a b"; "c"] 1 start eq_refl).
Defined.

(** X11. With a chunk size of at least the number of texts, [embed_documents]
    on a non-empty batch is one call of [_embedding_func] on the whole
    batch: the same calls, the same exception if it raises, and its result
    as the only entry of the list if it returns. *)
Theorem embed_documents_whole_batch_in_one_call :
  forall (W : Type) (self : Sagemaker.t W) (texts : list string)
         (chunk_size : Z) (s : state event W),
    texts <> [] ->
    Z.of_nat (length texts) <= chunk_size ->
    embed_documents self texts chunk_size s
    = (let (o, s') := _embedding_func self texts s in
       (match o with Ok r => Ok [r] | Raise e => Raise e end, s')).
Proof.
  intros W self texts chunk_size s Hne Hcs.
  assert (Hn : (0 < length texts)%nat) by (destruct texts; [done | simpl; lia]).
  unfold embed_documents. cbv zeta.
  assert (Hk : (if Z.of_nat (length texts) <? chunk_size
                then Z.of_nat (length texts) else chunk_size)
               = Z.of_nat (length texts)).
  { destruct (Z.ltb_spec (Z.of_nat (length texts)) chunk_size); lia. }
  rewrite Hk. unfold range3.
  replace (Z.of_nat (length texts) =? 0) with false
    by (symmetry; apply Z.eqb_neq; lia).
  rewrite PyFacts.range_items_step by done.
  assert (Hc : window_count (length texts) (length texts) = 1%nat).
  { unfold window_count.
    replace (length texts + length texts - 1)%nat
      with (length texts - 1 + 1 * length texts)%nat by lia.
    rewrite Nat.div_add by lia. rewrite Nat.div_small by lia. done. }
  rewrite Hc. unfold bind at 1, lift.
  cbn [seq fmap list_fmap for_each].
  unfold bind at 1. unfold bind at 1.
  replace (slice texts (Z.of_nat (0 * length texts))
             (Z.of_nat (0 * length texts) + Z.of_nat (length texts)))
    with texts.
  - by destruct (_embedding_func self texts s) as [[r|e] s1].
  - rewrite PyFacts.slice_window. simpl. by rewrite take_ge.
Qed.

Lemma embed_documents_whole_batch_in_one_call_witness :
  ["a"; "b"; "c"] <> []
  /\ fst (embed_documents (embedder good_client) ["a"; "b"; "c"] 64 start)
     = Ok [vector_per_char "abc"].
Proof.
  split; [discriminate |].
  rewrite (embed_documents_whole_batch_in_one_call nat (embedder good_client)
             ["a"; "b"; "c"] 64 start ltac:(discriminate) ltac:(simpl; lia)).
  reflexivity.
Defined.

(** X12. With a chunk size of one, [embed_documents] on a non-empty batch is
    [_embed_query] on each text in turn: the same calls in the same order,
    the results gathered in order, and the first exception ending the
    call. *)
Theorem embed_documents_by_one_is_query_per_text :
  forall (W : Type) (self : Sagemaker.t W) (texts : list string)
         (s : state event W),
    texts <> [] ->
    embed_documents self texts 1 s
    = for_each texts []
        (fun t results =>
           r <- _embed_query self t ;; ret (results ++ [r])) s.
Proof.
  intros W self texts s Hne.
  assert (Hn : (0 < length texts)%nat) by (destruct texts; [done | simpl; lia]).
  unfold embed_documents. cbv zeta.
  replace (Z.of_nat (length texts) <? 1) with false
    by (symmetry; apply Z.ltb_ge; lia).
  unfold range3. simpl (1 =? 0). unfold bind at 1, lift.
  rewrite <- (for_each_fmap (fun i => slice texts i (i + 1))
                (fun w results =>
                   response <- _embedding_func self w ;;
                   ret (results ++ [response]))).
  change 1 with (Z.of_nat 1).
  rewrite ChunkPlanFacts.loop_windows by lia.
  rewrite windows_of_one. by rewrite for_each_fmap.
Qed.

Lemma embed_documents_by_one_is_query_per_text_witness :
  ["a"; "b"] <> []
  /\ fst (embed_documents (embedder good_client) ["a"; "b"] 1 start)
     = Ok [vector_per_char "a"; vector_per_char "b"].
Proof.
  split; [discriminate |].
  rewrite (embed_documents_by_one_is_query_per_text nat (embedder good_client)
             ["a"; "b"] start ltac:(discriminate)).
  reflexivity.
Defined.

End SagemakerBehaviour.

(** ** [FakeEmbeddings]: the query and the documents *)

Module FakeEmbeddingsBehaviour.
Import Py FakeEmbeddings.

(** X13. The vector of a document depends on its position alone: two batches
    give the same vector at every position they share, whatever their
    texts and their sizes. *)
Theorem fake_embedding_depends_on_position_only :
  forall (texts texts' : list string) (i : nat),
    (i < length texts)%nat ->
    (i < length texts')%nat ->
    embed_documents texts !! i = embed_documents texts' !! i.
Proof.
  intros texts texts' i Hi Hi'. unfold embed_documents.
  rewrite !FakeEmbeddingsFacts.range1_seq, <- !list_fmap_compose.
  by rewrite !list_lookup_fmap, !lookup_seq_lt.
Qed.

Lemma fake_embedding_depends_on_position_only_witness :
  embed_documents ["foo"; "bar"; "baz"] !! 1%nat
  = embed_documents ["x"; "y"] !! 1%nat.
Proof.
  exact (fake_embedding_depends_on_position_only
           ["foo"; "bar"; "baz"] ["x"; "y"] 1
           ltac:(simpl; lia) ltac:(simpl; lia)).
Defined.

(** X14. The vector of any query is the vector of the first document of any
    non-empty batch. *)
Theorem fake_query_is_first_document :
  forall (texts : list string) (text : string),
    texts <> [] ->
    embed_documents texts !! 0%nat = Some (_embed_query text).
Proof.
  intros texts text Hne.
  assert (Hn : (0 < length texts)%nat) by (destruct texts; [done | simpl; lia]).
  unfold embed_documents.
  rewrite FakeEmbeddingsFacts.range1_seq, <- list_fmap_compose.
  by rewrite list_lookup_fmap, lookup_seq_lt.
Qed.

Lemma fake_query_is_first_document_witness :
  ["foo"; "bar"; "baz"] <> []
  /\ embed_documents ["foo"; "bar"; "baz"] !! 0%nat = Some (_embed_query "foo").
Proof.
  split; [discriminate |].
  exact (fake_query_is_first_document ["foo"; "bar"; "baz"] "foo"
           ltac:(discriminate)).
Defined.

End FakeEmbeddingsBehaviour.

(** ** [TensorflowHubEmbeddings]: one call of the model *)

Module TensorflowHubBehaviour.
Import Py TensorflowHub TensorflowHubRun Doubles.

(** X15. [embed_documents] of an embedder that holds a model calls the model
    exactly once, with the whole batch of normalised texts, whatever the
    number of texts, also none; what the model raises reaches the caller
    unchanged, and what it returns is converted row by row. *)
Theorem model_called_once_with_whole_batch :
  forall (W : Type) (self : TensorflowHub.t W) (m : Model W)
         (texts : list string) (s : state event W),
    embed self = Some m ->
    exists o w',
      run m (ArgList (replace_newlines <$> texts)) (world s) = (o, w')
      /\ embed_documents self texts s
         = (match o with Ok a => Ok (tolist a) | Raise e => Raise e end,
            State w'
              (journal s
               ++ [ModelCall (ArgList (replace_newlines <$> texts)) o])).
Proof.
  intros W self m texts s Hm.
  rewrite TensorflowHubFacts.model_embed_documents_run, Hm. cbv zeta.
  destruct (run m _ (world s)) as [o w']. by exists o, w'.
Qed.

Lemma model_called_once_with_whole_batch_witness :
  embed_documents tf_embedder [] start
  = (Ok (PList []), State 1%nat [ModelCall (ArgList []) (Ok (Array []))]).
Proof.
  destruct (model_called_once_with_whole_batch
              nat tf_embedder batch_model [] start eq_refl)
    as (o & w' & Hrun & Heq).
  rewrite Heq. injection Hrun as <- <-. reflexivity.
Defined.

(** X16. When the model answers the query with an array of rows,
    [_embed_query] returns the first row as a list and leaves the others
    aside; when the array has no row it raises the [IndexError] of the
    index [0]. *)
Theorem query_embedding_is_first_row :
  forall (W : Type) (self : TensorflowHub.t W) (m : Model W)
         (text : string) (s : state event W) (rows : list ndarray) (w' : W),
    embed self = Some m ->
    run m (ArgStr (replace_newlines text)) (world s) = (Ok (Array rows), w') ->
    fst (_embed_query self text s)
    = match rows with
      | row :: _ => Ok (tolist row)
      | [] =>
          Raise (Exn IndexError
                   "index 0 is out of bounds for axis 0 with size 0")
      end.
Proof.
  intros W self m text s rows w' Hm Hrun.
  rewrite TensorflowHubFacts.model_embed_query_run, Hm. cbv zeta.
  rewrite Hrun. by destruct rows.
Qed.

Lemma query_embedding_is_first_row_witness :
  fst (_embed_query
         {| embed := Some silent_model; model_url := DEFAULT_MODEL_URL |}
         "a" start)
  = Raise (Exn IndexError "index 0 is out of bounds for axis 0 with size 0").
Proof.
  exact (query_embedding_is_first_row nat
           {| embed := Some silent_model; model_url := DEFAULT_MODEL_URL |}
           silent_model "a" start [] 1%nat eq_refl eq_refl).
Defined.

End TensorflowHubBehaviour.
